(** * lambdadialogflow: a shallow embedding of the Dialogflow webhook shim

    The Go package [lambdadialogflow] (src/lambdadialogflow.go) routes one
    API-gateway request to a handler registered for the Dialogflow action,
    lets the handler fill a [WebhookResponse] through the [Agent] helpers and
    marshals that response.  This file embeds the package function by
    function and proves the properties of its specification.

    Conventions of the embedding:
    - a Go [string] is a sequence of bytes, which is exactly Rocq's [string]
      (a list of 8-bit [ascii]);
    - a Go pointer that may be [nil] is an [option]; dereferencing [nil]
      panics, which is the [Panic] outcome of the [outcome] monad;
    - a Go [map[string]T] is a [gmap string T]; a map that may be [nil] is an
      [option] of it, and reading a key of a [nil] map yields the zero value;
    - a protobuf message is a record inside a module of the message's name,
      so that [QueryResult.Action qr] reads like Go's [qr.Action];
    - [float64] is an IEEE 754 binary64 value, [spec_float];
    - the two library calls [jsonpb.Unmarshal] and [jsonpb.Marshaler.Marshal]
      are not code of this package: dispatch is stated for an arbitrary pair
      of them (Section variables). *)

From Stdlib Require Import ZArith Ascii String SpecFloat Lia.
From stdpp Require Import base option gmap strings list pretty.

Set Warnings "-register-all".
Local Open Scope Z_scope.

(** ** Faults *)

(** A Go call either returns or panics (here: nil-pointer dereference, or a
    fault raised by application code). *)
Inductive outcome (A : Type) : Type :=
  | Ret (a : A)
  | Panic.
Arguments Ret {A} a.
Arguments Panic {A}.

#[global] Instance outcome_ret : MRet outcome := @Ret.
#[global] Instance outcome_bind : MBind outcome := λ A B f m,
  match m with
  | Ret a => f a
  | Panic => Panic
  end.

(** [p.f] on a pointer [p]: faults when [p] is nil. *)
Definition deref {A : Type} (p : option A) : outcome A :=
  match p with
  | Some a => Ret a
  | None => Panic
  end.

(** [m[k]] on a Go map that may be nil; the zero value of a pointer type is
    nil.  An entry holding a nil pointer reads exactly like a missing key and
    the package only ever stores non-nil values, so values are non-nil. *)
Definition index {V : Type} (m : option (gmap string V)) (k : string) : option V :=
  m ≫= (λ fields, fields !! k).

Definition float64 : Type := spec_float.
Definition float64_zero : float64 := S754_zero false.

(** Go's [error] interface: nil, or a value carrying a message. *)
Definition error : Type := string.

Inductive result (A : Type) : Type :=
  | Ok (a : A)
  | Err (e : error).
Arguments Ok {A} a.
Arguments Err {A} e.

(** ** github.com/golang/protobuf/ptypes/struct *)
Module structpb.

Record Struct_ (V : Type) : Type := mkStruct {
  Fields : option (gmap string V)
}.
Arguments mkStruct {V} _.
Arguments Fields {V} _.

(** [Value] with its oneof [Kind]; [Kind_nil] is a [Value] whose [Kind] was
    never set. *)
Inductive Value : Type :=
  | Kind_nil
  | NullValue
  | NumberValue (x : float64)
  | StringValue (s : string)
  | BoolValue (b : bool)
  | StructValue (s : option (Struct_ Value))
  | ListValue (l : option (list Value)).

Definition Struct : Type := Struct_ Value.

(** The generated getters are nil-safe. *)
Definition GetFields (x : option Struct) : option (gmap string Value) :=
  x ≫= Fields.

Definition GetStringValue (x : option Value) : string :=
  match x with
  | Some (StringValue s) => s
  | _ => EmptyString
  end.

Definition GetNumberValue (x : option Value) : float64 :=
  match x with
  | Some (NumberValue n) => n
  | _ => float64_zero
  end.

End structpb.

(** ** google.golang.org/genproto/googleapis/cloud/dialogflow/v2

    Only the fields the package or its specification mention are kept; the
    remaining fields of the messages are carried through untouched. *)
Module Context.
Record t : Type := mk {
  Name : string;
  LifespanCount : Z;                      (* int32, stored as passed *)
  Parameters : option structpb.Struct
}.
End Context.

Module QueryResult.
Record t : Type := mk {
  QueryText : string;
  Action : string;
  Parameters : option structpb.Struct
}.
End QueryResult.

Module OriginalDetectIntentRequest.
Record t : Type := mk {
  Source : string;
  Payload : option structpb.Struct
}.
End OriginalDetectIntentRequest.

Module WebhookRequest.
Record t : Type := mk {
  Session : string;
  ResponseId : string;
  QueryResult : option QueryResult.t;
  OriginalDetectIntentRequest : option OriginalDetectIntentRequest.t
}.
End WebhookRequest.

Module WebhookResponse.
Record t : Type := mk {
  FulfillmentText : string;
  Source : string;
  Payload : option structpb.Struct;
  OutputContexts : list Context.t
}.

(** [&df.WebhookResponse{}] *)
Definition zero : t :=
  {| FulfillmentText := EmptyString; Source := EmptyString;
     Payload := None; OutputContexts := [] |}.
End WebhookResponse.

(** ** github.com/aws/aws-lambda-go/events *)
Module APIGatewayProxyRequest.
Record t : Type := mk {
  Path : string;
  HTTPMethod : string;
  Body : string
}.
End APIGatewayProxyRequest.

Module APIGatewayProxyResponse.
Record t : Type := mk {
  StatusCode : Z;
  Headers : option (gmap string string);
  Body : string;
  IsBase64Encoded : bool
}.

(** [events.APIGatewayProxyResponse{StatusCode: c}] *)
Definition status_only (c : Z) : t :=
  {| StatusCode := c; Headers := None; Body := EmptyString;
     IsBase64Encoded := false |}.
End APIGatewayProxyResponse.

(** ** encoding/base64, [StdEncoding]

    Go's standard encoding (RFC 4648 section 4, padded with [=]).  The
    encoder follows [Encoding.Encode]; the decoder follows
    [Encoding.DecodeString], which skips carriage returns and line feeds and
    is not strict about the unused trailing bits. *)
Module base64.

Definition encodeStd : string :=
  "ABCDEFGHIJKLMNOPQRSTUVWXYZabcdefghijklmnopqrstuvwxyz0123456789+/".

Definition padChar : ascii := "="%char.

(** [uint(b)] for a byte [b], and the truncating conversion [byte(x)]. *)
Definition uint (b : ascii) : Z := Z.of_N (N_of_ascii b).
Definition byte (x : Z) : ascii := ascii_of_N (Z.to_N (x mod 256)).

(** [enc.encode[i]]; every index the encoder uses is masked with [0x3F]. *)
Definition encode_at (i : Z) : ascii :=
  match String.get (Z.to_nat i) encodeStd with
  | Some c => c
  | None => zero
  end.

(** [enc.decodeMap[c]]: the position of [c] in the alphabet, [0xFF] for a
    byte outside it. *)
Fixpoint position (c : ascii) (alphabet : string) (i : Z) : Z :=
  match alphabet with
  | EmptyString => 255
  | String d rest => if Ascii.eqb c d then i else position c rest (i + 1)
  end.

Definition decodeMap (c : ascii) : Z := position c encodeStd 0.

Definition sextet (val shift : Z) : ascii :=
  encode_at (Z.land (Z.shiftr val shift) 63).

Fixpoint EncodeToString (src : string) : string :=
  match src with
  | EmptyString => EmptyString
  | String a EmptyString =>
      let val := Z.shiftl (uint a) 16 in
      String (sextet val 18) (String (sextet val 12)
        (String padChar (String padChar EmptyString)))
  | String a (String b EmptyString) =>
      let val := Z.lor (Z.shiftl (uint a) 16) (Z.shiftl (uint b) 8) in
      String (sextet val 18) (String (sextet val 12)
        (String (sextet val 6) (String padChar EmptyString)))
  | String a (String b (String c rest)) =>
      let val :=
        Z.lor (Z.lor (Z.shiftl (uint a) 16) (Z.shiftl (uint b) 8)) (uint c) in
      String (sextet val 18) (String (sextet val 12)
        (String (sextet val 6) (String (sextet val 0) (EncodeToString rest))))
  end.

Definition is_newline (c : ascii) : bool :=
  Ascii.eqb c "010"%char || Ascii.eqb c "013"%char.

Fixpoint strip_newlines (s : string) : string :=
  match s with
  | EmptyString => EmptyString
  | String c rest =>
      if is_newline c then strip_newlines rest
      else String c (strip_newlines rest)
  end.

Definition in_alphabet (c : ascii) : bool := negb (decodeMap c =? 255).

(** The four 6-bit digits of one quantum, reassembled. *)
Definition quantum (d0 d1 d2 d3 : Z) : Z :=
  Z.lor (Z.lor (Z.lor (Z.shiftl d0 18) (Z.shiftl d1 12)) (Z.shiftl d2 6)) d3.

Definition is_empty (s : string) : bool :=
  match s with
  | EmptyString => true
  | String _ _ => false
  end.

Fixpoint decode_quanta (s : string) : option string :=
  match s with
  | EmptyString => Some EmptyString
  | String c0 (String c1 (String c2 (String c3 rest))) =>
      if in_alphabet c0 && in_alphabet c1 then
        if in_alphabet c2 then
          if in_alphabet c3 then
            let val :=
              quantum (decodeMap c0) (decodeMap c1) (decodeMap c2) (decodeMap c3) in
            match decode_quanta rest with
            | Some tail =>
                Some (String (byte (Z.shiftr val 16))
                       (String (byte (Z.shiftr val 8))
                         (String (byte val) tail)))
            | None => None
            end
          else if Ascii.eqb c3 padChar && is_empty rest then
            let val := quantum (decodeMap c0) (decodeMap c1) (decodeMap c2) 0 in
            Some (String (byte (Z.shiftr val 16))
                   (String (byte (Z.shiftr val 8)) EmptyString))
          else None
        else if Ascii.eqb c2 padChar && Ascii.eqb c3 padChar && is_empty rest then
          let val := quantum (decodeMap c0) (decodeMap c1) 0 0 in
          Some (String (byte (Z.shiftr val 16)) EmptyString)
        else None
      else None
  | _ => None
  end.

Definition DecodeString (s : string) : option string :=
  decode_quanta (strip_newlines s).

(** What the proofs need of one alphabet position: the character at [i]
    is in the alphabet, decodes to [i], and is no line break. *)
Definition digit_ok (i : Z) : bool :=
  in_alphabet (encode_at i)
  && (decodeMap (encode_at i) =? i)
  && negb (is_newline (encode_at i)).

End base64.

(** ** package lambdadialogflow (src/lambdadialogflow.go) *)

(** [Agent] holds two pointers, both set by [newAgent] and never nil; a
    method that mutates through them returns the updated agent. *)
Record Agent : Type := mkAgent {
  req : WebhookRequest.t;
  res : WebhookResponse.t
}.

(** [type WebhookHandler func( *Agent)]: a function value may be nil; a
    non-nil one runs application code on the agent, which may fault. *)
Definition handler_fn : Type := Agent → outcome Agent.
Definition WebhookHandler : Type := option handler_fn.

Definition Request (w : Agent) : WebhookRequest.t := req w.

Definition Response (w : Agent) : WebhookResponse.t := res w.

Definition Action (w : Agent) : outcome string :=
  qr ← deref (WebhookRequest.QueryResult (req w));
  mret (QueryResult.Action qr).

Definition Session (w : Agent) : string := WebhookRequest.Session (req w).

Definition getField (w : Agent) (name : string) : outcome (option structpb.Value) :=
  qr ← deref (WebhookRequest.QueryResult (req w));
  let f := index (structpb.GetFields (QueryResult.Parameters qr)) name in
  match f with
  | Some _ => mret f
  | None =>
      odir ← deref (WebhookRequest.OriginalDetectIntentRequest (req w));
      mret (index (structpb.GetFields (OriginalDetectIntentRequest.Payload odir)) name)
  end.

Definition GetStringParam (w : Agent) (name : string) : outcome string :=
  f ← getField w name;
  match f with
  | Some _ => mret (structpb.GetStringValue f)
  | None => mret EmptyString
  end.

Definition GetNumberParam (w : Agent) (name : string) : outcome float64 :=
  f ← getField w name;
  match f with
  | Some _ => mret (structpb.GetNumberValue f)
  | None => mret float64_zero
  end.

Definition set_Payload (r : WebhookResponse.t) (p : option structpb.Struct)
  : WebhookResponse.t :=
  {| WebhookResponse.FulfillmentText := WebhookResponse.FulfillmentText r;
     WebhookResponse.Source := WebhookResponse.Source r;
     WebhookResponse.Payload := p;
     WebhookResponse.OutputContexts := WebhookResponse.OutputContexts r |}.

Definition set_FulfillmentText (r : WebhookResponse.t) (text : string)
  : WebhookResponse.t :=
  {| WebhookResponse.FulfillmentText := text;
     WebhookResponse.Source := WebhookResponse.Source r;
     WebhookResponse.Payload := WebhookResponse.Payload r;
     WebhookResponse.OutputContexts := WebhookResponse.OutputContexts r |}.

Definition set_OutputContexts (r : WebhookResponse.t) (cs : list Context.t)
  : WebhookResponse.t :=
  {| WebhookResponse.FulfillmentText := WebhookResponse.FulfillmentText r;
     WebhookResponse.Source := WebhookResponse.Source r;
     WebhookResponse.Payload := WebhookResponse.Payload r;
     WebhookResponse.OutputContexts := cs |}.

(** The write at [Payload.Fields[name]] is in place.  The response's map is
    taken not to be shared with a map of the request: that holds for the
    agent [newAgent] builds and for every agent the mutators make of it, and
    a handler that stores a request map into the response through
    [Response()] is outside this model. *)
Definition AddPayload (w : Agent) (name value : string) : Agent :=
  let stringValue := structpb.StringValue value in
  match WebhookResponse.Payload (Response w) with
  | Some {| structpb.Fields := Some fields |} =>
      mkAgent (req w)
        (set_Payload (res w)
           (Some (structpb.mkStruct (Some (<[name := stringValue]> fields)))))
  | _ =>
      mkAgent (req w)
        (set_Payload (res w)
           (Some (structpb.mkStruct (Some {[name := stringValue]}))))
  end.

Definition AddJSONPayloadBase64 (w : Agent) (name value : string) : Agent :=
  let encoded := base64.EncodeToString value in
  AddPayload w name encoded.

Definition Say (w : Agent) (someText : string) : Agent :=
  mkAgent (req w) (set_FulfillmentText (res w) someText).

Definition SetContext (w : Agent) (contextname : string) (lifetime : Z) : Agent :=
  let ctx :=
    {| Context.Name := contextname; Context.LifespanCount := lifetime;
       Context.Parameters := None |} in
  mkAgent (req w)
    (set_OutputContexts (res w) (WebhookResponse.OutputContexts (res w) ++ [ctx])).

(** The package variable [handlerMap] is threaded explicitly. *)
Definition Register (handlerMap : gmap string WebhookHandler)
    (action : string) (handler : WebhookHandler) : gmap string WebhookHandler :=
  <[action := handler]> handlerMap.

(** [handlerMap[action]]: nil when the key is missing. *)
Definition handlerMap_at (handlerMap : gmap string WebhookHandler)
    (action : string) : WebhookHandler :=
  match handlerMap !! action with
  | Some handler => handler
  | None => None
  end.

Definition newAgent (webhookRequest : WebhookRequest.t) : Agent * option error :=
  (mkAgent webhookRequest WebhookResponse.zero, None).

(** *** Dispatch, with a record of what it touches

    [HandleRequest] is instrumented with the two observations the
    specification speaks about: a read of the registry, and a call of a
    handler.  The record is kept also when the call faults. *)
Inductive event : Type :=
  | ReadRegistry (action : string)
  | Invoke (action : string).

Definition traced (A : Type) : Type := (list event * outcome A)%type.

#[global] Instance traced_ret : MRet traced := λ A a, ([], Ret a).
#[global] Instance traced_bind : MBind traced := λ A B f m,
  match m with
  | (t, Ret a) => let '(t', r) := f a in (t ++ t', r)
  | (t, Panic) => (t, Panic)
  end.

Definition emit (e : event) : traced unit := ([e], Ret tt).
Definition lift {A : Type} (o : outcome A) : traced A := ([], o).

Definition json_headers : gmap string string :=
  {["Content-Type" := "application/json"%string]}.

Section Dispatch.

(** [jsonpb.Unmarshal(strings.NewReader(body), webhookRequest)] and
    [marshaler.Marshal(&buf, w.res)] followed by [buf.String()]. *)
Variable Unmarshal : string → result WebhookRequest.t.
Variable Marshal : WebhookResponse.t → result string.

Definition HandleRequest (handlerMap : gmap string WebhookHandler)
    (r : APIGatewayProxyRequest.t)
  : traced (APIGatewayProxyResponse.t * option error) :=
  match Unmarshal (APIGatewayProxyRequest.Body r) with
  | Err err =>
      mret (APIGatewayProxyResponse.status_only 400,
            Some ("unable to decode webhook request: " +:+ err))
  | Ok webhookRequest =>
      let '(w, _) := newAgent webhookRequest in
      action ← lift (Action w);
      _ ← emit (ReadRegistry action);
      match handlerMap_at handlerMap action with
      | None =>
          action' ← lift (Action w);
          mret (APIGatewayProxyResponse.status_only 404,
                Some ("no handler defined for action: " +:+ action'))
      | Some webhookHandler =>
          _ ← emit (Invoke action);
          w' ← lift (webhookHandler w);
          match Marshal (res w') with
          | Err err => mret (APIGatewayProxyResponse.status_only 500, Some err)
          | Ok body =>
              mret ({| APIGatewayProxyResponse.StatusCode := 200;
                       APIGatewayProxyResponse.IsBase64Encoded := false;
                       APIGatewayProxyResponse.Body := body;
                       APIGatewayProxyResponse.Headers := Some json_headers |},
                    None)
          end
      end
  end.

End Dispatch.

(** ** The earlier revision of the getters (src/unnamed/part_000)

    One lookup, in the parameters only, through the nil-safe getters. *)
Module Previous.

Definition GetStringParam (w : Agent) (name : string) : outcome string :=
  qr ← deref (WebhookRequest.QueryResult (req w));
  mret (structpb.GetStringValue
          (index (structpb.GetFields (QueryResult.Parameters qr)) name)).

Definition GetNumberParam (w : Agent) (name : string) : outcome float64 :=
  qr ← deref (WebhookRequest.QueryResult (req w));
  mret (structpb.GetNumberValue
          (index (structpb.GetFields (QueryResult.Parameters qr)) name)).

End Previous.

(** ** Handlers built from the mutators

    What a handler does to the response through the package's own API is a
    sequence of mutator calls. *)
Inductive mutation : Type :=
  | CallSay (someText : string)
  | CallSetContext (contextname : string) (lifetime : Z)
  | CallAddPayload (name value : string)
  | CallAddJSONPayloadBase64 (name value : string).

Definition mutate (w : Agent) (m : mutation) : Agent :=
  match m with
  | CallSay someText => Say w someText
  | CallSetContext contextname lifetime => SetContext w contextname lifetime
  | CallAddPayload name value => AddPayload w name value
  | CallAddJSONPayloadBase64 name value => AddJSONPayloadBase64 w name value
  end.

Definition mutations (ms : list mutation) (w : Agent) : Agent := foldl mutate w ms.

Definition handler_of (ms : list mutation) : handler_fn := λ w, Ret (mutations ms w).

(** The context entries a sequence of calls asks for, in call order. *)
Fixpoint contexts_of (ms : list mutation) : list Context.t :=
  match ms with
  | [] => []
  | CallSetContext contextname lifetime :: rest =>
      {| Context.Name := contextname; Context.LifespanCount := lifetime;
         Context.Parameters := None |} :: contexts_of rest
  | _ :: rest => contexts_of rest
  end.

(** The handler of the README:
    [name := agent.GetStringParam("name"); agent.Say("Hello, " + name)]. *)
Definition hello : handler_fn := λ agent,
  name ← GetStringParam agent "name";
  mret (Say agent ("Hello, " +:+ name)).

(** A handler whose application code faults. *)
Definition faulty : handler_fn := λ _, Panic.

(** ** Concrete requests and a concrete codec

    The theorems below hold for every decoder and marshaler; to run them on
    inputs, [decode_sample] is the table of what [jsonpb.Unmarshal] yields on
    a few bodies, and [marshal_sample] writes the response fields the package
    sets, refusing a payload [Value] without a kind as jsonpb does. *)
Module Sample.

Definition dq : string := String "034"%char EmptyString.
Definition quoted (s : string) : string := dq +:+ s +:+ dq.
Definition member (k v : string) : string := quoted k +:+ ":" +:+ v.

(** [{"session":"s1","queryResult":{"action":a,"parameters":{"name":"Ada"}}}] *)
Definition body_for (a : string) : string :=
  "{" +:+ member "session" (quoted "s1") +:+ "," +:+
    member "queryResult"
      ("{" +:+ member "action" (quoted a) +:+ "," +:+
         member "parameters" ("{" +:+ member "name" (quoted "Ada") +:+ "}")
       +:+ "}")
  +:+ "}".

(** [{"session":"s1","queryResult":{"action":"hello"}}] *)
Definition body_bare : string :=
  "{" +:+ member "session" (quoted "s1") +:+ "," +:+
    member "queryResult" ("{" +:+ member "action" (quoted "hello") +:+ "}")
  +:+ "}".

(** [{"session":"s1"}] *)
Definition body_no_queryResult : string :=
  "{" +:+ member "session" (quoted "s1") +:+ "}".

Definition body_garbage : string := "{not json".

Definition request_for (a : string) : WebhookRequest.t :=
  {| WebhookRequest.Session := "s1"; WebhookRequest.ResponseId := EmptyString;
     WebhookRequest.QueryResult :=
       Some {| QueryResult.QueryText := EmptyString; QueryResult.Action := a;
               QueryResult.Parameters :=
                 Some (structpb.mkStruct
                         (Some {["name" := structpb.StringValue "Ada"]})) |};
     WebhookRequest.OriginalDetectIntentRequest := None |}.

Definition request_bare : WebhookRequest.t :=
  {| WebhookRequest.Session := "s1"; WebhookRequest.ResponseId := EmptyString;
     WebhookRequest.QueryResult :=
       Some {| QueryResult.QueryText := EmptyString; QueryResult.Action := "hello";
               QueryResult.Parameters := None |};
     WebhookRequest.OriginalDetectIntentRequest := None |}.

Definition request_no_queryResult : WebhookRequest.t :=
  {| WebhookRequest.Session := "s1"; WebhookRequest.ResponseId := EmptyString;
     WebhookRequest.QueryResult := None;
     WebhookRequest.OriginalDetectIntentRequest := None |}.

Definition decode_sample (body : string) : result WebhookRequest.t :=
  if decide (body = body_for "hello") then Ok (request_for "hello")
  else if decide (body = body_for "unregistered") then Ok (request_for "unregistered")
  else if decide (body = body_bare) then Ok request_bare
  else if decide (body = body_no_queryResult) then Ok request_no_queryResult
  else Err "invalid character".

Definition has_kind (v : structpb.Value) : bool :=
  match v with
  | structpb.Kind_nil => false
  | _ => true
  end.

Definition payload_ok (p : option structpb.Struct) : bool :=
  match structpb.GetFields p with
  | Some fields => forallb (λ kv, has_kind kv.2) (map_to_list fields)
  | None => true
  end.

Definition write_context (c : Context.t) : string :=
  "{" +:+ member "name" (quoted (Context.Name c)) +:+ "," +:+
    member "lifespanCount" (pretty (Context.LifespanCount c)) +:+ "}".

Definition write_entry (kv : string * structpb.Value) : string :=
  member kv.1 (match kv.2 with
               | structpb.StringValue s => quoted s
               | _ => "null"
               end).

Definition join (sep : string) (parts : list string) : string :=
  match parts with
  | [] => EmptyString
  | p :: ps => foldl (λ acc x, acc +:+ sep +:+ x) p ps
  end.

Definition marshal_sample (r : WebhookResponse.t) : result string :=
  if payload_ok (WebhookResponse.Payload r) then
    Ok ("{" +:+
        join ","
          ((if decide (WebhookResponse.FulfillmentText r = EmptyString) then []
            else [member "fulfillmentText"
                    (quoted (WebhookResponse.FulfillmentText r))]) ++
           (match WebhookResponse.OutputContexts r with
            | [] => []
            | cs => [member "outputContexts"
                       ("[" +:+ join "," (write_context <$> cs) +:+ "]")]
            end) ++
           (match structpb.GetFields (WebhookResponse.Payload r) with
            | Some fields =>
                [member "payload"
                   ("{" +:+ join "," (write_entry <$> map_to_list fields) +:+ "}")]
            | None => []
            end))
        +:+ "}")
  else Err "nil Value".

Definition request (body : string) : APIGatewayProxyRequest.t :=
  {| APIGatewayProxyRequest.Path := "/"; APIGatewayProxyRequest.HTTPMethod := "POST";
     APIGatewayProxyRequest.Body := body |}.

(** The registry of the README's [main]: [ld.Register("hello", hello)]. *)
Definition registry : gmap string WebhookHandler :=
  Register ∅ "hello" (Some hello).

(** A handler that stores a payload [Value] whose kind was never set,
    through [agent.Response()]. *)
Definition kindless : handler_fn := λ w,
  Ret (mkAgent (req w)
         (set_Payload (res w)
            (Some (structpb.mkStruct (Some {["x" := structpb.Kind_nil]}))))).


(** A request whose parameters and original payload both carry [name], and
    whose original payload alone carries [user]; [count] is a number. *)
Definition request_two_tier : WebhookRequest.t :=
  {| WebhookRequest.Session := "s1"; WebhookRequest.ResponseId := EmptyString;
     WebhookRequest.QueryResult :=
       Some {| QueryResult.QueryText := EmptyString; QueryResult.Action := "hello";
               QueryResult.Parameters :=
                 Some (structpb.mkStruct
                         (Some (<["count" := structpb.NumberValue (S754_finite false 3 0)]>
                                  {["name" := structpb.StringValue "Ada"]}))) |};
     WebhookRequest.OriginalDetectIntentRequest :=
       Some {| OriginalDetectIntentRequest.Source := "test";
               OriginalDetectIntentRequest.Payload :=
                 Some (structpb.mkStruct
                         (Some (<["user" := structpb.StringValue "u1"]>
                                  (<["count" := structpb.StringValue "many"]>
                                     {["name" := structpb.StringValue "Bob"]})))) |} |}.

Definition registry_faulty : gmap string WebhookHandler :=
  Register ∅ "hello" (Some faulty).

Definition registry_kindless : gmap string WebhookHandler :=
  Register ∅ "hello" (Some kindless).

End Sample.

(** ** Vocabulary of the statements *)

(** The same agent over a request whose [OriginalDetectIntentRequest] pointer
    is [o]. *)
Definition with_original (w : Agent) (o : option OriginalDetectIntentRequest.t)
  : Agent :=
  mkAgent
    {| WebhookRequest.Session := WebhookRequest.Session (req w);
       WebhookRequest.ResponseId := WebhookRequest.ResponseId (req w);
       WebhookRequest.QueryResult := WebhookRequest.QueryResult (req w);
       WebhookRequest.OriginalDetectIntentRequest := o |}
    (res w).

Definition is_SetContext (m : mutation) : bool :=
  match m with
  | CallSetContext _ _ => true
  | _ => false
  end.

(** The response of a status-200 return carrying [body]. *)
Definition success_response (body : string) : APIGatewayProxyResponse.t :=
  {| APIGatewayProxyResponse.StatusCode := 200;
     APIGatewayProxyResponse.IsBase64Encoded := false;
     APIGatewayProxyResponse.Body := body;
     APIGatewayProxyResponse.Headers := Some json_headers |}.

(** ** What a sequence of mutator calls leaves behind *)

(** The text of the last [Say] among the calls. *)
Fixpoint last_Say (ms : list mutation) : option string :=
  match ms with
  | [] => None
  | m :: rest =>
      match last_Say rest with
      | Some text => Some text
      | None =>
          match m with
          | CallSay text => Some text
          | _ => None
          end
      end
  end.

(** The string one call stores under [name] in the payload. *)
Definition written (name : string) (m : mutation) : option string :=
  match m with
  | CallAddPayload n value => if decide (n = name) then Some value else None
  | CallAddJSONPayloadBase64 n value =>
      if decide (n = name) then Some (base64.EncodeToString value) else None
  | _ => None
  end.

(** The string the last call that writes [name] stores there. *)
Fixpoint last_written (name : string) (ms : list mutation) : option string :=
  match ms with
  | [] => None
  | m :: rest =>
      match last_written name rest with
      | Some value => Some value
      | None => written name m
      end
  end.

Definition writes_payload (m : mutation) : bool :=
  match m with
  | CallAddPayload _ _ | CallAddJSONPayloadBase64 _ _ => true
  | _ => false
  end.

(** [payload[name]] of the agent's response, nil when there is none. *)
Definition payload_at (w : Agent) (name : string) : option structpb.Value :=
  index (structpb.GetFields (WebhookResponse.Payload (res w))) name.

Fixpoint all_chars (p : ascii → bool) (s : string) : bool :=
  match s with
  | EmptyString => true
  | String c rest => p c && all_chars p rest
  end.

(** ** encoding/json, [HTMLEscape]

    Used by the earlier revision of [HandleRequest] on the marshaled body:
    each of the bytes [<], [>] and [&] becomes backslash, [u00] and its two
    hexadecimal digits, and the UTF-8 encodings of U+2028 and U+2029
    (E2 80 A8 and E2 80 A9) become backslash, [u202] and [8] or [9]; every
    other byte is copied. *)
Module json.

Definition hex : string := "0123456789abcdef".

Definition uint8 (b : ascii) : Z := Z.of_N (N_of_ascii b).

Definition hex_at (i : Z) : ascii :=
  match String.get (Z.to_nat i) hex with
  | Some c => c
  | None => zero
  end.

Definition is_markup (c : ascii) : bool :=
  Ascii.eqb c "<"%char || Ascii.eqb c ">"%char || Ascii.eqb c "&"%char.

Fixpoint HTMLEscape (src : string) : string :=
  match src with
  | EmptyString => EmptyString
  | String c rest =>
      if is_markup c then
        "\u00" +:+
        String (hex_at (Z.shiftr (uint8 c) 4))
          (String (hex_at (Z.land (uint8 c) 15)) (HTMLEscape rest))
      else
        match rest with
        | String c1 (String c2 rest') =>
            if Ascii.eqb c "226"%char && Ascii.eqb c1 "128"%char
               && (Z.land (uint8 c2) 254 =? 168)
            then "\u202" +:+ String (hex_at (Z.land (uint8 c2) 15)) (HTMLEscape rest')
            else String c (HTMLEscape rest)
        | _ => String c (HTMLEscape rest)
        end
  end.

End json.

(** ** The earlier revision of [HandleRequest] (src/unnamed/part_000)

    It differs in the encoding leg: [json.Marshal(w.res)], then
    [json.HTMLEscape(&buf, body)]. *)
Module Revision0.
Section Dispatch.

Variable Unmarshal : string → result WebhookRequest.t.
Variable jsonMarshal : WebhookResponse.t → result string.

Definition HandleRequest (handlerMap : gmap string WebhookHandler)
    (r : APIGatewayProxyRequest.t)
  : traced (APIGatewayProxyResponse.t * option error) :=
  match Unmarshal (APIGatewayProxyRequest.Body r) with
  | Err err =>
      mret (APIGatewayProxyResponse.status_only 400,
            Some ("unable to decode webhook request: " +:+ err))
  | Ok webhookRequest =>
      let '(w, _) := newAgent webhookRequest in
      action ← lift (Action w);
      _ ← emit (ReadRegistry action);
      match handlerMap_at handlerMap action with
      | None =>
          action' ← lift (Action w);
          mret (APIGatewayProxyResponse.status_only 404,
                Some ("no handler defined for action: " +:+ action'))
      | Some webhookHandler =>
          _ ← emit (Invoke action);
          w' ← lift (webhookHandler w);
          match jsonMarshal (res w') with
          | Err err => mret (APIGatewayProxyResponse.status_only 500, Some err)
          | Ok body =>
              mret ({| APIGatewayProxyResponse.StatusCode := 200;
                       APIGatewayProxyResponse.IsBase64Encoded := false;
                       APIGatewayProxyResponse.Body := json.HTMLEscape body;
                       APIGatewayProxyResponse.Headers := Some json_headers |},
                    None)
          end
      end
  end.

End Dispatch.
End Revision0.

(** * Properties *)

(** ** Bytes and bit arithmetic *)
Section Bits.

Lemma uint_range (b : ascii) : 0 ≤ base64.uint b < 256.
Proof.
  unfold base64.uint. pose proof (N_ascii_bounded b) as Hb.
  split; [apply N2Z.is_nonneg|].
  change 256 with (Z.of_N 256). by apply N2Z.inj_lt.
Qed.

Lemma byte_of_uint (b : ascii) (x : Z) :
  x mod 256 = base64.uint b → base64.byte x = b.
Proof.
  intros Hx. unfold base64.byte. rewrite Hx. unfold base64.uint.
  rewrite N2Z.id. apply ascii_N_embedding.
Qed.

(** [hi | lo] adds when [lo] fits below the lowest set bit of [hi]. *)
Lemma lor_disjoint_add (hi lo k : Z) :
  0 ≤ k → 0 ≤ lo < 2 ^ k → hi mod 2 ^ k = 0 → Z.lor hi lo = hi + lo.
Proof.
  intros Hk Hlo Hhi. symmetry. apply Z.add_nocarry_lor.
  apply Z.bits_inj'. intros n Hn.
  rewrite Z.land_spec, Z.bits_0.
  destruct (Z.lt_ge_cases n k) as [Hlt|Hge].
  - rewrite <- (Z.mod_pow2_bits_low hi k n) by lia.
    rewrite Hhi, Z.bits_0. reflexivity.
  - rewrite <- (Z.mod_small lo (2 ^ k)) by lia.
    rewrite Z.mod_pow2_bits_high by lia. apply andb_false_r.
Qed.

Lemma shiftl_mul (a k : Z) : 0 ≤ k → Z.shiftl a k = a * 2 ^ k.
Proof. apply Z.shiftl_mul_pow2. Qed.

Lemma digit_eq (val k : Z) :
  0 ≤ k → Z.land (Z.shiftr val k) 63 = (val / 2 ^ k) mod 64.
Proof.
  intros Hk. rewrite Z.shiftr_div_pow2 by lia.
  change 63 with (Z.ones 6). rewrite Z.land_ones by lia. reflexivity.
Qed.

Lemma digit_range (val k : Z) : 0 ≤ k → 0 ≤ Z.land (Z.shiftr val k) 63 < 64.
Proof. intros Hk. rewrite digit_eq by lia. apply Z.mod_pos_bound. lia. Qed.

Lemma pack3 (a b c : Z) :
  0 ≤ a < 256 → 0 ≤ b < 256 → 0 ≤ c < 256 →
  Z.lor (Z.lor (Z.shiftl a 16) (Z.shiftl b 8)) c = a * 65536 + b * 256 + c.
Proof.
  intros Ha Hb Hc. rewrite !shiftl_mul by lia.
  change (2 ^ 16) with 65536. change (2 ^ 8) with 256.
  rewrite (lor_disjoint_add (a * 65536) (b * 256) 16) by
    (try change (2 ^ 16) with 65536; try apply Z_mod_mult; lia).
  apply (lor_disjoint_add _ c 8); [lia | change (2 ^ 8) with 256; lia |].
  change (2 ^ 8) with 256.
  replace (a * 65536 + b * 256) with ((a * 256 + b) * 256) by lia.
  apply Z_mod_mult.
Qed.

Lemma pack2 (a b : Z) :
  0 ≤ a < 256 → 0 ≤ b < 256 →
  Z.lor (Z.shiftl a 16) (Z.shiftl b 8) = a * 65536 + b * 256.
Proof.
  intros Ha Hb. pose proof (pack3 a b 0 Ha Hb ltac:(lia)) as H.
  rewrite Z.lor_0_r in H. lia.
Qed.

Lemma quantum_sum (d0 d1 d2 d3 : Z) :
  0 ≤ d0 < 64 → 0 ≤ d1 < 64 → 0 ≤ d2 < 64 → 0 ≤ d3 < 64 →
  base64.quantum d0 d1 d2 d3 = d0 * 262144 + d1 * 4096 + d2 * 64 + d3.
Proof.
  intros H0 H1 H2 H3. unfold base64.quantum. rewrite !shiftl_mul by lia.
  change (2 ^ 18) with 262144. change (2 ^ 12) with 4096. change (2 ^ 6) with 64.
  rewrite (lor_disjoint_add (d0 * 262144) (d1 * 4096) 18);
    [| lia | change (2 ^ 18) with 262144; lia | apply Z_mod_mult].
  rewrite (lor_disjoint_add _ (d2 * 64) 12);
    [| lia | change (2 ^ 12) with 4096; lia |].
  2:{ change (2 ^ 12) with 4096.
      replace (d0 * 262144 + d1 * 4096) with ((d0 * 64 + d1) * 4096) by lia.
      apply Z_mod_mult. }
  apply (lor_disjoint_add _ d3 6); [lia | change (2 ^ 6) with 64; lia |].
  change (2 ^ 6) with 64.
  replace (d0 * 262144 + d1 * 4096 + d2 * 64)
    with ((d0 * 4096 + d1 * 64 + d2) * 64) by lia.
  apply Z_mod_mult.
Qed.

(** Cutting 24 bits into four digits and gluing them back. *)
Lemma requantize (val : Z) :
  0 ≤ val < 16777216 →
  base64.quantum (Z.land (Z.shiftr val 18) 63) (Z.land (Z.shiftr val 12) 63)
    (Z.land (Z.shiftr val 6) 63) (Z.land (Z.shiftr val 0) 63) = val.
Proof.
  intros Hval. rewrite quantum_sum by (apply digit_range; lia).
  rewrite !digit_eq by lia.
  change (2 ^ 18) with 262144. change (2 ^ 12) with 4096.
  change (2 ^ 6) with 64. change (2 ^ 0) with 1.
  Z.div_mod_to_equations. lia.
Qed.

Lemma requantize_3 (val : Z) :
  0 ≤ val < 16777216 → val mod 64 = 0 →
  base64.quantum (Z.land (Z.shiftr val 18) 63) (Z.land (Z.shiftr val 12) 63)
    (Z.land (Z.shiftr val 6) 63) 0 = val.
Proof.
  intros Hval Hlow. rewrite quantum_sum by (try apply digit_range; lia).
  rewrite !digit_eq by lia.
  change (2 ^ 18) with 262144. change (2 ^ 12) with 4096. change (2 ^ 6) with 64.
  Z.div_mod_to_equations. lia.
Qed.

Lemma requantize_2 (val : Z) :
  0 ≤ val < 16777216 → val mod 4096 = 0 →
  base64.quantum (Z.land (Z.shiftr val 18) 63) (Z.land (Z.shiftr val 12) 63) 0 0
  = val.
Proof.
  intros Hval Hlow. rewrite quantum_sum by (try apply digit_range; lia).
  rewrite !digit_eq by lia.
  change (2 ^ 18) with 262144. change (2 ^ 12) with 4096.
  Z.div_mod_to_equations. lia.
Qed.

End Bits.

(** ** The base64 alphabet *)
Section Alphabet.

Lemma digits_ok : forallb base64.digit_ok (seqZ 0 64) = true.
Proof. vm_compute. reflexivity. Qed.

Lemma digit_ok_at (i : Z) : 0 ≤ i < 64 → base64.digit_ok i = true.
Proof.
  intros Hi. pose proof digits_ok as Hall.
  rewrite forallb_forall in Hall. apply Hall.
  apply list_elem_of_In, elem_of_seqZ. lia.
Qed.

Lemma encode_at_in_alphabet (i : Z) :
  0 ≤ i < 64 → base64.in_alphabet (base64.encode_at i) = true.
Proof.
  intros Hi. pose proof (digit_ok_at i Hi) as H. unfold base64.digit_ok in H.
  apply andb_prop in H as [H _]. apply andb_prop in H as [H _]. exact H.
Qed.

Lemma decodeMap_encode_at (i : Z) :
  0 ≤ i < 64 → base64.decodeMap (base64.encode_at i) = i.
Proof.
  intros Hi. pose proof (digit_ok_at i Hi) as H. unfold base64.digit_ok in H.
  apply andb_prop in H as [H _]. apply andb_prop in H as [_ H].
  by apply Z.eqb_eq.
Qed.

Lemma encode_at_not_newline (i : Z) :
  0 ≤ i < 64 → base64.is_newline (base64.encode_at i) = false.
Proof.
  intros Hi. pose proof (digit_ok_at i Hi) as H. unfold base64.digit_ok in H.
  apply andb_prop in H as [_ H]. by apply negb_true_iff.
Qed.

Lemma sextet_in_alphabet (val k : Z) :
  0 ≤ k → base64.in_alphabet (base64.sextet val k) = true.
Proof. intros. apply encode_at_in_alphabet, digit_range. lia. Qed.

Lemma decodeMap_sextet (val k : Z) :
  0 ≤ k → base64.decodeMap (base64.sextet val k) = Z.land (Z.shiftr val k) 63.
Proof. intros. apply decodeMap_encode_at, digit_range. lia. Qed.

Lemma sextet_not_newline (val k : Z) :
  0 ≤ k → base64.is_newline (base64.sextet val k) = false.
Proof. intros. apply encode_at_not_newline, digit_range. lia. Qed.

Lemma padChar_facts :
  base64.in_alphabet base64.padChar = false
  ∧ base64.is_newline base64.padChar = false
  ∧ Ascii.eqb base64.padChar base64.padChar = true.
Proof. repeat split; vm_compute; reflexivity. Qed.

End Alphabet.

(** ** Round trip of the encoder and the decoder *)
Section RoundTrip.

(** Strings three bytes at a time, the way the encoder consumes them. *)
Lemma string_by_blocks (P : string → Prop) :
  P EmptyString →
  (∀ a, P (String a EmptyString)) →
  (∀ a b, P (String a (String b EmptyString))) →
  (∀ a b c rest, P rest → P (String a (String b (String c rest)))) →
  ∀ s, P s.
Proof.
  intros H0 H1 H2 H3.
  assert (Hall : ∀ s, P s ∧ (∀ a, P (String a s)) ∧ (∀ a b, P (String a (String b s)))).
  { induction s as [|c s (IH0 & IH1 & IH2)].
    - repeat split; auto.
    - repeat split; auto. }
  intros s. apply Hall.
Qed.

Lemma encoded_has_no_newline (s : string) :
  base64.strip_newlines (base64.EncodeToString s) = base64.EncodeToString s.
Proof.
  pose proof padChar_facts as (_ & Hpad & _).
  induction s as [|a|a b|a b c rest IH] using string_by_blocks.
  - reflexivity.
  - cbn [base64.EncodeToString base64.strip_newlines].
    rewrite !sextet_not_newline, Hpad by lia. reflexivity.
  - cbn [base64.EncodeToString base64.strip_newlines].
    rewrite !sextet_not_newline, Hpad by lia. reflexivity.
  - cbn [base64.EncodeToString base64.strip_newlines].
    rewrite !sextet_not_newline by lia. rewrite IH. reflexivity.
Qed.

Lemma decode_block (a b c : ascii) (rest : string) :
  let val := Z.lor (Z.lor (Z.shiftl (base64.uint a) 16)
                      (Z.shiftl (base64.uint b) 8)) (base64.uint c) in
  base64.decode_quanta
    (String (base64.sextet val 18) (String (base64.sextet val 12)
      (String (base64.sextet val 6) (String (base64.sextet val 0) rest))))
  = match base64.decode_quanta rest with
    | Some tail => Some (String a (String b (String c tail)))
    | None => None
    end.
Proof.
  intros val. cbn [base64.decode_quanta].
  rewrite !sextet_in_alphabet by lia. cbn [andb].
  rewrite !decodeMap_sextet by lia.
  pose proof (uint_range a) as Ha. pose proof (uint_range b) as Hb.
  pose proof (uint_range c) as Hc.
  assert (Hval : val = base64.uint a * 65536 + base64.uint b * 256 + base64.uint c)
    by (apply pack3; lia).
  rewrite requantize by lia.
  rewrite !Z.shiftr_div_pow2 by lia.
  change (2 ^ 16) with 65536. change (2 ^ 8) with 256.
  rewrite (byte_of_uint a), (byte_of_uint b), (byte_of_uint c);
    [reflexivity | | |]; rewrite Hval; Z.div_mod_to_equations; lia.
Qed.

Lemma decode_two_bytes (a b : ascii) :
  let val := Z.lor (Z.shiftl (base64.uint a) 16) (Z.shiftl (base64.uint b) 8) in
  base64.decode_quanta
    (String (base64.sextet val 18) (String (base64.sextet val 12)
      (String (base64.sextet val 6) (String base64.padChar EmptyString))))
  = Some (String a (String b EmptyString)).
Proof.
  intros val. pose proof padChar_facts as (Hout & _ & Heq).
  cbn [base64.decode_quanta].
  rewrite !sextet_in_alphabet by lia. rewrite Hout, Heq.
  cbn [andb base64.is_empty].
  rewrite !decodeMap_sextet by lia.
  pose proof (uint_range a) as Ha. pose proof (uint_range b) as Hb.
  assert (Hval : val = base64.uint a * 65536 + base64.uint b * 256)
    by (apply pack2; lia).
  rewrite requantize_3 by (rewrite Hval; Z.div_mod_to_equations; lia).
  rewrite !Z.shiftr_div_pow2 by lia.
  change (2 ^ 16) with 65536. change (2 ^ 8) with 256.
  rewrite (byte_of_uint a), (byte_of_uint b);
    [reflexivity | |]; rewrite Hval; Z.div_mod_to_equations; lia.
Qed.

Lemma decode_one_byte (a : ascii) :
  let val := Z.shiftl (base64.uint a) 16 in
  base64.decode_quanta
    (String (base64.sextet val 18) (String (base64.sextet val 12)
      (String base64.padChar (String base64.padChar EmptyString))))
  = Some (String a EmptyString).
Proof.
  intros val. pose proof padChar_facts as (Hout & _ & Heq).
  cbn [base64.decode_quanta].
  rewrite !sextet_in_alphabet by lia. rewrite Hout, Heq.
  cbn [andb base64.is_empty].
  rewrite !decodeMap_sextet by lia.
  pose proof (uint_range a) as Ha.
  assert (Hval : val = base64.uint a * 65536)
    by (unfold val; rewrite shiftl_mul by lia; reflexivity).
  rewrite requantize_2 by (rewrite Hval; Z.div_mod_to_equations; lia).
  rewrite !Z.shiftr_div_pow2 by lia. change (2 ^ 16) with 65536.
  rewrite (byte_of_uint a); [reflexivity |].
  rewrite Hval; Z.div_mod_to_equations; lia.
Qed.

Lemma decode_quanta_encode (s : string) :
  base64.decode_quanta (base64.EncodeToString s) = Some s.
Proof.
  induction s as [|a|a b|a b c rest IH] using string_by_blocks.
  - reflexivity.
  - apply decode_one_byte.
  - apply decode_two_bytes.
  - cbn [base64.EncodeToString]. rewrite decode_block, IH. reflexivity.
Qed.

Lemma DecodeString_EncodeToString (s : string) :
  base64.DecodeString (base64.EncodeToString s) = Some s.
Proof.
  unfold base64.DecodeString.
  rewrite encoded_has_no_newline. apply decode_quanta_encode.
Qed.

End RoundTrip.

Example base64_hello : base64.EncodeToString "hello" = "aGVsbG8="%string.
Proof. reflexivity. Qed.

Example base64_hello_back : base64.DecodeString "aGVsbG8=" = Some "hello"%string.
Proof. reflexivity. Qed.

Example base64_foobar :
  base64.EncodeToString "foobar" = "Zm9vYmFy"%string
  ∧ base64.EncodeToString "fooba" = "Zm9vYmE="%string
  ∧ base64.EncodeToString "foob" = "Zm9vYg=="%string.
Proof. repeat split; reflexivity. Qed.

Example base64_rejects_bad_padding :
  base64.DecodeString "Zg=" = None ∧ base64.DecodeString "Zm9v=" = None.
Proof. split; reflexivity. Qed.

(** ** The getters *)

Lemma getField_in_parameters (w : Agent) (qr : QueryResult.t) (name : string)
    (v : structpb.Value) :
  WebhookRequest.QueryResult (req w) = Some qr →
  index (structpb.GetFields (QueryResult.Parameters qr)) name = Some v →
  getField w name = Ret (Some v).
Proof. intros Hqr Hv. unfold getField. rewrite Hqr. simpl. rewrite Hv. reflexivity. Qed.

Lemma getField_fallback (w : Agent) (qr : QueryResult.t)
    (odir : OriginalDetectIntentRequest.t) (name : string) :
  WebhookRequest.QueryResult (req w) = Some qr →
  index (structpb.GetFields (QueryResult.Parameters qr)) name = None →
  WebhookRequest.OriginalDetectIntentRequest (req w) = Some odir →
  getField w name
  = Ret (index (structpb.GetFields (OriginalDetectIntentRequest.Payload odir)) name).
Proof.
  intros Hqr Hv Ho. unfold getField. rewrite Hqr. simpl. rewrite Hv, Ho. reflexivity.
Qed.

Lemma getField_nil_original (w : Agent) (qr : QueryResult.t) (name : string) :
  WebhookRequest.QueryResult (req w) = Some qr →
  index (structpb.GetFields (QueryResult.Parameters qr)) name = None →
  WebhookRequest.OriginalDetectIntentRequest (req w) = None →
  getField w name = Panic.
Proof.
  intros Hqr Hv Ho. unfold getField. rewrite Hqr. simpl. rewrite Hv, Ho. reflexivity.
Qed.

Lemma getField_nil_queryResult (w : Agent) (name : string) :
  WebhookRequest.QueryResult (req w) = None → getField w name = Panic.
Proof. intros Hqr. unfold getField. rewrite Hqr. reflexivity. Qed.

Lemma GetStringParam_of_getField (w : Agent) (name : string) (f : option structpb.Value) :
  getField w name = Ret f → GetStringParam w name = Ret (structpb.GetStringValue f).
Proof. intros Hf. unfold GetStringParam. rewrite Hf. by destruct f. Qed.

Lemma GetNumberParam_of_getField (w : Agent) (name : string) (f : option structpb.Value) :
  getField w name = Ret f → GetNumberParam w name = Ret (structpb.GetNumberValue f).
Proof. intros Hf. unfold GetNumberParam. rewrite Hf. by destruct f. Qed.

(** Where both pointers are set the getters do return, with the zero value
    for a name that is in neither map. *)
Lemma getters_return_when_pointers_set (w : Agent) (qr : QueryResult.t)
    (odir : OriginalDetectIntentRequest.t) (name : string) :
  WebhookRequest.QueryResult (req w) = Some qr →
  WebhookRequest.OriginalDetectIntentRequest (req w) = Some odir →
  (∃ s, GetStringParam w name = Ret s) ∧ (∃ x, GetNumberParam w name = Ret x)
  ∧ (index (structpb.GetFields (QueryResult.Parameters qr)) name = None →
     index (structpb.GetFields (OriginalDetectIntentRequest.Payload odir)) name = None →
     GetStringParam w name = Ret EmptyString
     ∧ GetNumberParam w name = Ret float64_zero).
Proof.
  intros Hqr Ho.
  destruct (index (structpb.GetFields (QueryResult.Parameters qr)) name) as [v|] eqn:Hv.
  - pose proof (getField_in_parameters w qr name v Hqr Hv) as Hf.
    rewrite (GetStringParam_of_getField _ _ _ Hf), (GetNumberParam_of_getField _ _ _ Hf).
    split; [eauto | split; [eauto |]]. intros Habs. discriminate Habs.
  - pose proof (getField_fallback w qr odir name Hqr Hv Ho) as Hf.
    rewrite (GetStringParam_of_getField _ _ _ Hf), (GetNumberParam_of_getField _ _ _ Hf).
    split; [eauto | split; [eauto |]]. intros _ Hnone. rewrite Hnone. by split.
Qed.

(** C1 (defect in the code).  The getters are not total: on the
    request decoded from a body without [originalDetectIntentRequest], a name
    that is not among the parameters makes [getField] dereference the nil
    [OriginalDetectIntentRequest] pointer, so [GetStringParam] and
    [GetNumberParam] fault instead of returning the empty string and 0.  The
    earlier revision of the two getters returns the zero values there. *)
Theorem getters_fault_without_original_request :
  Sample.decode_sample (Sample.body_for "hello") = Ok (Sample.request_for "hello")
  ∧ WebhookRequest.OriginalDetectIntentRequest (Sample.request_for "hello") = None
  ∧ GetStringParam (newAgent (Sample.request_for "hello")).1 "name" = Ret "Ada"%string
  ∧ GetStringParam (newAgent (Sample.request_for "hello")).1 "age" = Panic
  ∧ GetNumberParam (newAgent (Sample.request_for "hello")).1 "age" = Panic
  ∧ Previous.GetStringParam (newAgent (Sample.request_for "hello")).1 "age"
    = Ret EmptyString
  ∧ Previous.GetNumberParam (newAgent (Sample.request_for "hello")).1 "age"
    = Ret float64_zero.
Proof. repeat split; vm_compute; reflexivity. Qed.

(** C5.  The lookup is two-tier and the parameters win.  For a request with
    a query result: if the name has an entry in the parameters, whatever its
    kind, both getters read that entry whatever the original request holds
    (even none), and an entry of the wrong kind gives the zero value, not the
    original payload's entry; if the name has no entry in the parameters, the
    getters read the original payload's entry. *)
Theorem parameters_take_precedence (w : Agent) (qr : QueryResult.t) (name : string) :
  WebhookRequest.QueryResult (req w) = Some qr →
  (∀ v, index (structpb.GetFields (QueryResult.Parameters qr)) name = Some v →
     ∀ o,
       getField (with_original w o) name = Ret (Some v)
       ∧ GetStringParam (with_original w o) name = Ret (structpb.GetStringValue (Some v))
       ∧ GetNumberParam (with_original w o) name = Ret (structpb.GetNumberValue (Some v))
       ∧ ((∀ s, v ≠ structpb.StringValue s) →
          GetStringParam (with_original w o) name = Ret EmptyString)
       ∧ ((∀ x, v ≠ structpb.NumberValue x) →
          GetNumberParam (with_original w o) name = Ret float64_zero))
  ∧ (index (structpb.GetFields (QueryResult.Parameters qr)) name = None →
     ∀ odir, WebhookRequest.OriginalDetectIntentRequest (req w) = Some odir →
       let f := index (structpb.GetFields (OriginalDetectIntentRequest.Payload odir)) name in
       getField w name = Ret f
       ∧ GetStringParam w name = Ret (structpb.GetStringValue f)
       ∧ GetNumberParam w name = Ret (structpb.GetNumberValue f)).
Proof.
  intros Hqr. split.
  - intros v Hv o.
    assert (Hf : getField (with_original w o) name = Ret (Some v))
      by (by apply (getField_in_parameters _ qr)).
    rewrite (GetStringParam_of_getField _ _ _ Hf), (GetNumberParam_of_getField _ _ _ Hf).
    repeat split.
    + exact Hf.
    + intros Hkind. destruct v; try reflexivity. by destruct (Hkind s).
    + intros Hkind. destruct v; try reflexivity. by destruct (Hkind x).
  - intros Hv odir Ho f.
    pose proof (getField_fallback w qr odir name Hqr Hv Ho) as Hf. fold f in Hf.
    rewrite (GetStringParam_of_getField _ _ _ Hf), (GetNumberParam_of_getField _ _ _ Hf).
    by repeat split.
Qed.

Lemma parameters_take_precedence_witness :
  GetStringParam (with_original (newAgent Sample.request_two_tier).1 None) "name"
  = Ret "Ada"%string
  ∧ GetStringParam (with_original (newAgent Sample.request_two_tier).1 None) "count"
    = Ret EmptyString
  ∧ GetStringParam (newAgent Sample.request_two_tier).1 "user" = Ret "u1"%string.
Proof.
  pose proof (parameters_take_precedence (newAgent Sample.request_two_tier).1
                {| QueryResult.QueryText := EmptyString; QueryResult.Action := "hello";
                   QueryResult.Parameters :=
                     Some (structpb.mkStruct
                             (Some (<["count" := structpb.NumberValue (S754_finite false 3 0)]>
                                      {["name" := structpb.StringValue "Ada"]}))) |})
    as Htier.
  split; [| split].
  - destruct (Htier "name" eq_refl) as [Hin _].
    destruct (Hin (structpb.StringValue "Ada") ltac:(vm_compute; reflexivity) None)
      as (_ & Hs & _).
    exact Hs.
  - destruct (Htier "count" eq_refl) as [Hin _].
    destruct (Hin (structpb.NumberValue (S754_finite false 3 0))
                ltac:(vm_compute; reflexivity) None) as (_ & _ & _ & Hs & _).
    apply Hs. intros s Hs'. discriminate Hs'.
  - destruct (Htier "user" eq_refl) as [_ Hout].
    destruct (Hout ltac:(vm_compute; reflexivity)
                {| OriginalDetectIntentRequest.Source := "test";
                   OriginalDetectIntentRequest.Payload :=
                     Some (structpb.mkStruct
                             (Some (<["user" := structpb.StringValue "u1"]>
                                      (<["count" := structpb.StringValue "many"]>
                                         {["name" := structpb.StringValue "Bob"]})))) |}
                eq_refl) as (_ & Hs & _).
    vm_compute in Hs. vm_compute. exact Hs.
Defined.

(** ** The mutators *)

Lemma AddPayload_lookup (w : Agent) (name value : string) :
  index (structpb.GetFields (WebhookResponse.Payload (res (AddPayload w name value)))) name
  = Some (structpb.StringValue value).
Proof.
  unfold AddPayload, Response.
  destruct (WebhookResponse.Payload (res w)) as [[[fields|]]|]; simpl.
  - apply lookup_insert_eq.
  - apply lookup_singleton_eq.
  - apply lookup_singleton_eq.
Qed.

Lemma AddPayload_keeps_contexts (w : Agent) (name value : string) :
  WebhookResponse.OutputContexts (res (AddPayload w name value))
  = WebhookResponse.OutputContexts (res w).
Proof.
  unfold AddPayload, Response.
  by destruct (WebhookResponse.Payload (res w)) as [[[fields|]]|].
Qed.

Lemma mutate_contexts (w : Agent) (m : mutation) :
  WebhookResponse.OutputContexts (res (mutate w m))
  = WebhookResponse.OutputContexts (res w) ++ contexts_of [m].
Proof.
  destruct m; simpl; rewrite ?app_nil_r; try reflexivity.
  - apply AddPayload_keeps_contexts.
  - unfold AddJSONPayloadBase64. apply AddPayload_keeps_contexts.
Qed.

Lemma contexts_of_app (ms ms' : list mutation) :
  contexts_of (ms ++ ms') = contexts_of ms ++ contexts_of ms'.
Proof.
  induction ms as [|m ms IH]; [reflexivity|].
  destruct m; simpl; rewrite IH; reflexivity.
Qed.

Lemma contexts_of_length (ms : list mutation) :
  length (contexts_of ms) = length (filter (λ m, is_SetContext m = true) ms).
Proof.
  induction ms as [|m ms IH]; [reflexivity|].
  destruct m.
  - rewrite filter_cons_False by (simpl; discriminate). exact IH.
  - rewrite filter_cons_True by reflexivity. simpl. by rewrite IH.
  - rewrite filter_cons_False by (simpl; discriminate). exact IH.
  - rewrite filter_cons_False by (simpl; discriminate). exact IH.
Qed.

(** C6.  Base64 round trip: after [AddJSONPayloadBase64 name v] the payload
    holds under [name] a string value, and decoding that string with the
    standard base64 decoder gives back [v], byte for byte. *)
Theorem base64_payload_round_trip (w : Agent) (name v : string) :
  ∃ encoded,
    index (structpb.GetFields
             (WebhookResponse.Payload (res (AddJSONPayloadBase64 w name v)))) name
    = Some (structpb.StringValue encoded)
    ∧ base64.DecodeString encoded = Some v.
Proof.
  exists (base64.EncodeToString v). split.
  - unfold AddJSONPayloadBase64. apply AddPayload_lookup.
  - apply DecodeString_EncodeToString.
Qed.

(** C7.  [SetContext] appends exactly one entry [{name, lifespanCount}] at
    the end of [outputContexts] and nothing is ever removed or merged: after
    any sequence of mutator calls the contexts are the old ones followed by
    one entry per [SetContext] call, in call order, so [n] calls leave [n]
    entries on a fresh agent, equal names included. *)
Theorem SetContext_appends_in_order :
  (∀ w contextname lifetime,
     WebhookResponse.OutputContexts (res (SetContext w contextname lifetime))
     = WebhookResponse.OutputContexts (res w)
       ++ [{| Context.Name := contextname; Context.LifespanCount := lifetime;
              Context.Parameters := None |}])
  ∧ (∀ ms w,
       WebhookResponse.OutputContexts (res (mutations ms w))
       = WebhookResponse.OutputContexts (res w) ++ contexts_of ms)
  ∧ (∀ ms webhookRequest,
       WebhookResponse.OutputContexts (res (mutations ms (newAgent webhookRequest).1))
       = contexts_of ms
       ∧ length (contexts_of ms) = length (filter (λ m, is_SetContext m = true) ms))
  ∧ (∀ calls : list (string * Z),
       contexts_of ((λ c, CallSetContext c.1 c.2) <$> calls)
       = (λ c, {| Context.Name := c.1; Context.LifespanCount := c.2;
                  Context.Parameters := None |}) <$> calls).
Proof.
  assert (Hrun : ∀ ms w,
             WebhookResponse.OutputContexts (res (mutations ms w))
             = WebhookResponse.OutputContexts (res w) ++ contexts_of ms).
  { unfold mutations. induction ms as [|m ms IH]; intros w; simpl.
    - by rewrite app_nil_r.
    - rewrite IH, mutate_contexts, <- app_assoc, <- contexts_of_app. reflexivity. }
  split; [reflexivity | split; [exact Hrun | split]].
  - intros ms webhookRequest. split; [| apply contexts_of_length].
    rewrite Hrun. reflexivity.
  - induction calls as [|c calls IH]; [reflexivity|].
    rewrite !fmap_cons. cbn [contexts_of]. by rewrite IH.
Qed.

Example SetContext_twice_keeps_both :
  WebhookResponse.OutputContexts
    (res (SetContext (SetContext (newAgent Sample.request_bare).1 "greeted" 5) "greeted" 5))
  = [ {| Context.Name := "greeted"; Context.LifespanCount := 5; Context.Parameters := None |};
      {| Context.Name := "greeted"; Context.LifespanCount := 5; Context.Parameters := None |} ].
Proof. reflexivity. Qed.

(** ** Dispatch *)
Section DispatchPaths.

Variable Unmarshal : string → result WebhookRequest.t.
Variable Marshal : WebhookResponse.t → result string.

Implicit Types (handlerMap : gmap string WebhookHandler)
  (r : APIGatewayProxyRequest.t) (webhookRequest : WebhookRequest.t)
  (qr : QueryResult.t) (handler : handler_fn).

Lemma Action_newAgent webhookRequest qr :
  WebhookRequest.QueryResult webhookRequest = Some qr →
  Action (newAgent webhookRequest).1 = Ret (QueryResult.Action qr).
Proof. intros Hqr. unfold Action. simpl. rewrite Hqr. reflexivity. Qed.

Lemma Action_nil_queryResult webhookRequest :
  WebhookRequest.QueryResult webhookRequest = None →
  Action (newAgent webhookRequest).1 = Panic.
Proof. intros Hqr. unfold Action. simpl. rewrite Hqr. reflexivity. Qed.

Lemma HandleRequest_decode_error handlerMap r err :
  Unmarshal (APIGatewayProxyRequest.Body r) = Err err →
  HandleRequest Unmarshal Marshal handlerMap r
  = ([], Ret (APIGatewayProxyResponse.status_only 400,
              Some ("unable to decode webhook request: " +:+ err))).
Proof. intros Hdec. unfold HandleRequest. rewrite Hdec. reflexivity. Qed.

Lemma HandleRequest_nil_queryResult handlerMap r webhookRequest :
  Unmarshal (APIGatewayProxyRequest.Body r) = Ok webhookRequest →
  WebhookRequest.QueryResult webhookRequest = None →
  HandleRequest Unmarshal Marshal handlerMap r = ([], Panic).
Proof.
  intros Hdec Hqr. unfold HandleRequest. rewrite Hdec. unfold newAgent.
  unfold Action. simpl. rewrite Hqr. reflexivity.
Qed.

Lemma HandleRequest_no_handler handlerMap r webhookRequest qr :
  Unmarshal (APIGatewayProxyRequest.Body r) = Ok webhookRequest →
  WebhookRequest.QueryResult webhookRequest = Some qr →
  handlerMap_at handlerMap (QueryResult.Action qr) = None →
  HandleRequest Unmarshal Marshal handlerMap r
  = ([ReadRegistry (QueryResult.Action qr)],
     Ret (APIGatewayProxyResponse.status_only 404,
          Some ("no handler defined for action: " +:+ QueryResult.Action qr))).
Proof.
  intros Hdec Hqr Hnone. unfold HandleRequest. rewrite Hdec. unfold newAgent.
  unfold Action. simpl. rewrite Hqr. simpl. rewrite Hnone. reflexivity.
Qed.

Lemma HandleRequest_invokes handlerMap r webhookRequest qr handler :
  Unmarshal (APIGatewayProxyRequest.Body r) = Ok webhookRequest →
  WebhookRequest.QueryResult webhookRequest = Some qr →
  handlerMap_at handlerMap (QueryResult.Action qr) = Some handler →
  HandleRequest Unmarshal Marshal handlerMap r
  = ([ReadRegistry (QueryResult.Action qr); Invoke (QueryResult.Action qr)],
     match handler (mkAgent webhookRequest WebhookResponse.zero) with
     | Panic => Panic
     | Ret w' =>
         match Marshal (res w') with
         | Err err => Ret (APIGatewayProxyResponse.status_only 500, Some err)
         | Ok body => Ret (success_response body, None)
         end
     end).
Proof.
  intros Hdec Hqr Hsome. unfold HandleRequest. rewrite Hdec. unfold newAgent.
  unfold Action. simpl. rewrite Hqr. simpl. rewrite Hsome. simpl.
  destruct (handler _) as [w'|]; simpl; [|reflexivity].
  destruct (Marshal _); reflexivity.
Qed.

Lemma handlerMap_at_Register handlerMap action (h : WebhookHandler) :
  handlerMap_at (Register handlerMap action h) action = h.
Proof. unfold handlerMap_at, Register. by rewrite lookup_insert_eq. Qed.

Lemma handlerMap_at_Register_other handlerMap action other (h : WebhookHandler) :
  other ≠ action →
  handlerMap_at (Register handlerMap action h) other = handlerMap_at handlerMap other.
Proof. intros Hne. unfold handlerMap_at, Register. by rewrite lookup_insert_ne. Qed.

End DispatchPaths.

(** C2 (as amended).  For a body that decodes to a request with a query
    result whose action has a registered handler: if the handler, run on the
    agent of the decoded request and an empty response, returns without
    faulting, and the marshaler serializes the response it left, then
    [HandleRequest] returns status 200, the header
    [Content-Type: application/json], a body that is that serialization, and
    a nil error, after one registry read and one handler call. *)
Theorem dispatch_success_200
    (Unmarshal : string → result WebhookRequest.t)
    (Marshal : WebhookResponse.t → result string)
    (handlerMap : gmap string WebhookHandler) (r : APIGatewayProxyRequest.t)
    (webhookRequest : WebhookRequest.t) (qr : QueryResult.t)
    (handler : handler_fn) (w' : Agent) (body : string) :
  Unmarshal (APIGatewayProxyRequest.Body r) = Ok webhookRequest →
  WebhookRequest.QueryResult webhookRequest = Some qr →
  handlerMap_at handlerMap (QueryResult.Action qr) = Some handler →
  handler (mkAgent webhookRequest WebhookResponse.zero) = Ret w' →
  Marshal (res w') = Ok body →
  HandleRequest Unmarshal Marshal handlerMap r
  = ([ReadRegistry (QueryResult.Action qr); Invoke (QueryResult.Action qr)],
     Ret ({| APIGatewayProxyResponse.StatusCode := 200;
             APIGatewayProxyResponse.Headers :=
               Some {["Content-Type" := "application/json"%string]};
             APIGatewayProxyResponse.Body := body;
             APIGatewayProxyResponse.IsBase64Encoded := false |},
          None)).
Proof.
  intros Hdec Hqr Hsome Hrun Hmarshal.
  rewrite (HandleRequest_invokes _ _ _ _ _ _ _ Hdec Hqr Hsome), Hrun, Hmarshal.
  reflexivity.
Qed.

Lemma dispatch_success_200_witness :
  HandleRequest Sample.decode_sample Sample.marshal_sample Sample.registry
    (Sample.request (Sample.body_for "hello"))
  = ([ReadRegistry "hello"; Invoke "hello"],
     Ret ({| APIGatewayProxyResponse.StatusCode := 200;
             APIGatewayProxyResponse.Headers :=
               Some {["Content-Type" := "application/json"%string]};
             APIGatewayProxyResponse.Body :=
               "{" +:+ Sample.member "fulfillmentText" (Sample.quoted "Hello, Ada") +:+ "}";
             APIGatewayProxyResponse.IsBase64Encoded := false |},
          None)).
Proof.
  apply (dispatch_success_200 Sample.decode_sample Sample.marshal_sample
           Sample.registry (Sample.request (Sample.body_for "hello"))
           (Sample.request_for "hello")
           {| QueryResult.QueryText := EmptyString; QueryResult.Action := "hello";
              QueryResult.Parameters :=
                Some (structpb.mkStruct
                        (Some {["name" := structpb.StringValue "Ada"]})) |}
           hello
           (Say (newAgent (Sample.request_for "hello")).1 "Hello, Ada")).
  - vm_compute. reflexivity.
  - reflexivity.
  - vm_compute. reflexivity.
  - vm_compute. reflexivity.
  - vm_compute. reflexivity.
Defined.

(** C2 (counterexample to the unconditional statement).  A well-formed body
    whose action has a registered handler does not always come back with
    status 200.  A handler
    whose code faults makes [HandleRequest] fault, and a response the
    marshaler refuses comes back with status 500 and the marshaler's
    error. *)
Lemma dispatch_not_always_200 :
  Sample.decode_sample
    (APIGatewayProxyRequest.Body (Sample.request (Sample.body_for "hello")))
  = Ok (Sample.request_for "hello")
  ∧ handlerMap_at Sample.registry_faulty "hello" = Some faulty
  ∧ HandleRequest Sample.decode_sample Sample.marshal_sample Sample.registry_faulty
      (Sample.request (Sample.body_for "hello"))
    = ([ReadRegistry "hello"; Invoke "hello"], Panic)
  ∧ handlerMap_at Sample.registry_kindless "hello" = Some Sample.kindless
  ∧ HandleRequest Sample.decode_sample Sample.marshal_sample Sample.registry_kindless
      (Sample.request (Sample.body_for "hello"))
    = ([ReadRegistry "hello"; Invoke "hello"],
       Ret (APIGatewayProxyResponse.status_only 500, Some "nil Value"%string)).
Proof. repeat split; vm_compute; reflexivity. Qed.

(** C3.  A body that fails decoding gets status 400 (with an error naming the
    decoding failure); the registry is not read and no handler is called:
    nothing is recorded, and the result is the same for every registry. *)
Theorem decode_failure_400
    (Unmarshal : string → result WebhookRequest.t)
    (Marshal : WebhookResponse.t → result string)
    (r : APIGatewayProxyRequest.t) (err : error) :
  Unmarshal (APIGatewayProxyRequest.Body r) = Err err →
  ∀ handlerMap : gmap string WebhookHandler,
    HandleRequest Unmarshal Marshal handlerMap r
    = ([], Ret (APIGatewayProxyResponse.status_only 400,
                Some ("unable to decode webhook request: " +:+ err))).
Proof. intros Hdec handlerMap. by apply HandleRequest_decode_error. Qed.

Lemma decode_failure_400_witness :
  HandleRequest Sample.decode_sample Sample.marshal_sample Sample.registry_faulty
    (Sample.request Sample.body_garbage)
  = ([], Ret (APIGatewayProxyResponse.status_only 400,
              Some "unable to decode webhook request: invalid character"%string)).
Proof.
  apply (decode_failure_400 Sample.decode_sample Sample.marshal_sample
           (Sample.request Sample.body_garbage) "invalid character").
  vm_compute. reflexivity.
Defined.

(** C4 (as amended).  A body that decodes to a request with a query result
    whose action has no registered handler gets status 404 (with an error
    naming the action); the registry is read once and no handler is
    called. *)
Theorem missing_handler_404
    (Unmarshal : string → result WebhookRequest.t)
    (Marshal : WebhookResponse.t → result string)
    (handlerMap : gmap string WebhookHandler) (r : APIGatewayProxyRequest.t)
    (webhookRequest : WebhookRequest.t) (qr : QueryResult.t) :
  Unmarshal (APIGatewayProxyRequest.Body r) = Ok webhookRequest →
  WebhookRequest.QueryResult webhookRequest = Some qr →
  handlerMap_at handlerMap (QueryResult.Action qr) = None →
  HandleRequest Unmarshal Marshal handlerMap r
  = ([ReadRegistry (QueryResult.Action qr)],
     Ret (APIGatewayProxyResponse.status_only 404,
          Some ("no handler defined for action: " +:+ QueryResult.Action qr)))
  ∧ ∀ action, Invoke action ∉ (HandleRequest Unmarshal Marshal handlerMap r).1.
Proof.
  intros Hdec Hqr Hnone.
  rewrite (HandleRequest_no_handler _ _ _ _ _ _ Hdec Hqr Hnone).
  split; [reflexivity|]. intros action Hin. simpl in Hin.
  apply list_elem_of_singleton in Hin. discriminate Hin.
Qed.

Lemma missing_handler_404_witness :
  HandleRequest Sample.decode_sample Sample.marshal_sample Sample.registry_faulty
    (Sample.request (Sample.body_for "unregistered"))
  = ([ReadRegistry "unregistered"],
     Ret (APIGatewayProxyResponse.status_only 404,
          Some "no handler defined for action: unregistered"%string)).
Proof.
  apply (missing_handler_404 Sample.decode_sample Sample.marshal_sample
           Sample.registry_faulty (Sample.request (Sample.body_for "unregistered"))
           (Sample.request_for "unregistered")
           {| QueryResult.QueryText := EmptyString;
              QueryResult.Action := "unregistered";
              QueryResult.Parameters :=
                Some (structpb.mkStruct
                        (Some {["name" := structpb.StringValue "Ada"]})) |}).
  - vm_compute. reflexivity.
  - reflexivity.
  - vm_compute. reflexivity.
Defined.

(** C4 (counterexample to the unconditional statement).  A body that decodes
    and has no registered handler does not always get status 404: the body
    with a session and no [queryResult] decodes, the registry is empty, and
    [HandleRequest] faults while reading the action instead of returning a
    response. *)
Lemma missing_handler_not_always_404 :
  Sample.decode_sample
    (APIGatewayProxyRequest.Body (Sample.request Sample.body_no_queryResult))
  = Ok Sample.request_no_queryResult
  ∧ WebhookRequest.QueryResult Sample.request_no_queryResult = None
  ∧ HandleRequest Sample.decode_sample Sample.marshal_sample ∅
      (Sample.request Sample.body_no_queryResult)
    = ([], Panic)
  ∧ HandleRequest Sample.decode_sample Sample.marshal_sample ∅
      (Sample.request Sample.body_no_queryResult)
    ≠ ([], Ret (APIGatewayProxyResponse.status_only 404,
                Some "no handler defined for action: "%string)).
Proof.
  repeat split; try (vm_compute; reflexivity).
  vm_compute. intros Hret. discriminate Hret.
Qed.

(** C8.  [Register] inserts or overwrites the entry of its action and
    cannot fail; the last registration for an action wins: after
    [Register(a, h1)] then [Register(a, h2)] the registry holds [h2] for [a]
    (as if [h1] had never been registered), a request with action [a] is
    dispatched to [h2], and the entries of the other actions are as before. *)
Theorem Register_last_wins
    (Unmarshal : string → result WebhookRequest.t)
    (Marshal : WebhookResponse.t → result string)
    (handlerMap : gmap string WebhookHandler) (action : string)
    (h1 h2 : WebhookHandler) :
  handlerMap_at (Register (Register handlerMap action h1) action h2) action = h2
  ∧ Register (Register handlerMap action h1) action h2 = Register handlerMap action h2
  ∧ (∀ other, other ≠ action →
       handlerMap_at (Register (Register handlerMap action h1) action h2) other
       = handlerMap_at handlerMap other)
  ∧ (∀ r webhookRequest qr handler,
       Unmarshal (APIGatewayProxyRequest.Body r) = Ok webhookRequest →
       WebhookRequest.QueryResult webhookRequest = Some qr →
       QueryResult.Action qr = action →
       h2 = Some handler →
       HandleRequest Unmarshal Marshal
         (Register (Register handlerMap action h1) action h2) r
       = ([ReadRegistry action; Invoke action],
          match handler (mkAgent webhookRequest WebhookResponse.zero) with
          | Panic => Panic
          | Ret w' =>
              match Marshal (res w') with
              | Err err => Ret (APIGatewayProxyResponse.status_only 500, Some err)
              | Ok body => Ret (success_response body, None)
              end
          end)).
Proof.
  split; [apply handlerMap_at_Register | split; [| split]].
  - unfold Register. apply insert_insert_eq.
  - intros other Hne. by rewrite !handlerMap_at_Register_other.
  - intros r webhookRequest qr handler Hdec Hqr <- ->.
    apply HandleRequest_invokes; [assumption | assumption |].
    apply handlerMap_at_Register.
Qed.

Lemma Register_last_wins_witness :
  HandleRequest Sample.decode_sample Sample.marshal_sample
    (Register (Register ∅ "hello" (Some faulty)) "hello" (Some hello))
    (Sample.request (Sample.body_for "hello"))
  = ([ReadRegistry "hello"; Invoke "hello"],
     Ret (success_response
            ("{" +:+ Sample.member "fulfillmentText" (Sample.quoted "Hello, Ada") +:+ "}"),
          None)).
Proof.
  destruct (Register_last_wins Sample.decode_sample Sample.marshal_sample ∅ "hello"
              (Some faulty) (Some hello)) as (_ & _ & _ & Hdispatch).
  rewrite (Hdispatch (Sample.request (Sample.body_for "hello"))
             (Sample.request_for "hello")
             {| QueryResult.QueryText := EmptyString; QueryResult.Action := "hello";
                QueryResult.Parameters :=
                  Some (structpb.mkStruct
                          (Some {["name" := structpb.StringValue "Ada"]})) |}
             hello ltac:(vm_compute; reflexivity) eq_refl eq_refl eq_refl).
  vm_compute. reflexivity.
Defined.

(** C9.  A body that decodes to a request without a query result makes
    [HandleRequest] fault: [Action] dereferences the nil [QueryResult]
    pointer.  This happens before the registry is read, and the call yields
    no response at all, so no 4xx status. *)
Theorem missing_queryResult_faults
    (Unmarshal : string → result WebhookRequest.t)
    (Marshal : WebhookResponse.t → result string)
    (handlerMap : gmap string WebhookHandler) (r : APIGatewayProxyRequest.t)
    (webhookRequest : WebhookRequest.t) :
  Unmarshal (APIGatewayProxyRequest.Body r) = Ok webhookRequest →
  WebhookRequest.QueryResult webhookRequest = None →
  Action (newAgent webhookRequest).1 = Panic
  ∧ HandleRequest Unmarshal Marshal handlerMap r = ([], Panic)
  ∧ ∀ response, (HandleRequest Unmarshal Marshal handlerMap r).2 ≠ Ret response.
Proof.
  intros Hdec Hqr.
  rewrite (HandleRequest_nil_queryResult _ _ _ _ _ Hdec Hqr).
  split; [by apply Action_nil_queryResult | split; [reflexivity|]].
  intros response Hret. discriminate Hret.
Qed.

Lemma missing_queryResult_faults_witness :
  HandleRequest Sample.decode_sample Sample.marshal_sample Sample.registry
    (Sample.request Sample.body_no_queryResult)
  = ([], Panic).
Proof.
  apply (missing_queryResult_faults Sample.decode_sample Sample.marshal_sample
           Sample.registry (Sample.request Sample.body_no_queryResult)
           Sample.request_no_queryResult).
  - vm_compute. reflexivity.
  - reflexivity.
Defined.

(** C10.  Whenever [HandleRequest] returns, its status is 200, 400, 404 or
    500; with status 400 or 404 the response carries the status alone and
    the error is non-nil; with status 200 the error is nil. *)
Theorem error_accompanies_status
    (Unmarshal : string → result WebhookRequest.t)
    (Marshal : WebhookResponse.t → result string)
    (handlerMap : gmap string WebhookHandler) (r : APIGatewayProxyRequest.t)
    (t : list event) (response : APIGatewayProxyResponse.t) (err : option error) :
  HandleRequest Unmarshal Marshal handlerMap r = (t, Ret (response, err)) →
  APIGatewayProxyResponse.StatusCode response ∈ [200; 400; 404; 500]
  ∧ (APIGatewayProxyResponse.StatusCode response = 400
     ∨ APIGatewayProxyResponse.StatusCode response = 404 →
     err ≠ None
     ∧ response
       = APIGatewayProxyResponse.status_only
           (APIGatewayProxyResponse.StatusCode response))
  ∧ (APIGatewayProxyResponse.StatusCode response = 200 → err = None).
Proof.
  destruct (Unmarshal (APIGatewayProxyRequest.Body r)) as [webhookRequest|e] eqn:Hdec.
  2:{ rewrite (HandleRequest_decode_error _ _ _ _ _ Hdec). intros [= <- <- <-].
      simpl. split; [set_solver|]. split; [by intros _ | intros Hs; discriminate Hs]. }
  destruct (WebhookRequest.QueryResult webhookRequest) as [qr|] eqn:Hqr.
  2:{ rewrite (HandleRequest_nil_queryResult _ _ _ _ _ Hdec Hqr). intros Hret.
      discriminate Hret. }
  destruct (handlerMap_at handlerMap (QueryResult.Action qr)) as [handler|] eqn:Hat.
  2:{ rewrite (HandleRequest_no_handler _ _ _ _ _ _ Hdec Hqr Hat). intros [= <- <- <-].
      simpl. split; [set_solver|]. split; [by intros _ | intros Hs; discriminate Hs]. }
  rewrite (HandleRequest_invokes _ _ _ _ _ _ _ Hdec Hqr Hat).
  destruct (handler _) as [w'|]; [| intros Hret; discriminate Hret].
  destruct (Marshal _) as [body|e]; intros [= <- <- <-]; simpl.
  - split; [set_solver|]. split; [| reflexivity].
    intros [Hs|Hs]; discriminate Hs.
  - split; [set_solver|]. split; [| intros Hs; discriminate Hs].
    intros [Hs|Hs]; discriminate Hs.
Qed.

Lemma error_accompanies_status_witness :
  (Some "unable to decode webhook request: invalid character"%string ≠ None
   ∧ APIGatewayProxyResponse.status_only 400 = APIGatewayProxyResponse.status_only 400)
  ∧ (Some "no handler defined for action: unregistered"%string ≠ None
     ∧ APIGatewayProxyResponse.status_only 404 = APIGatewayProxyResponse.status_only 404)
  ∧ (@None error = None).
Proof.
  split; [| split].
  - apply (error_accompanies_status Sample.decode_sample Sample.marshal_sample
             Sample.registry (Sample.request Sample.body_garbage) []
             (APIGatewayProxyResponse.status_only 400)
             (Some "unable to decode webhook request: invalid character"%string)).
    + vm_compute. reflexivity.
    + left. reflexivity.
  - apply (error_accompanies_status Sample.decode_sample Sample.marshal_sample
             Sample.registry (Sample.request (Sample.body_for "unregistered"))
             [ReadRegistry "unregistered"]
             (APIGatewayProxyResponse.status_only 404)
             (Some "no handler defined for action: unregistered"%string)).
    + vm_compute. reflexivity.
    + right. reflexivity.
  - apply (error_accompanies_status Sample.decode_sample Sample.marshal_sample
             Sample.registry (Sample.request (Sample.body_for "hello"))
             [ReadRegistry "hello"; Invoke "hello"]
             (success_response
                ("{" +:+ Sample.member "fulfillmentText" (Sample.quoted "Hello, Ada") +:+ "}"))
             None).
    + vm_compute. reflexivity.
    + reflexivity.
Defined.

(** ** The scenarios of the specification, run *)

Example scenario_hello_ada :
  HandleRequest Sample.decode_sample Sample.marshal_sample Sample.registry
    (Sample.request (Sample.body_for "hello"))
  = ([ReadRegistry "hello"; Invoke "hello"],
     Ret (success_response
            ("{" +:+ Sample.member "fulfillmentText" (Sample.quoted "Hello, Ada") +:+ "}"),
          None)).
Proof. vm_compute. reflexivity. Qed.

Example scenario_greeted_twice :
  (HandleRequest Sample.decode_sample Sample.marshal_sample
     (Register ∅ "hello"
        (Some (handler_of [CallSetContext "greeted" 5; CallSetContext "greeted" 5])))
     (Sample.request (Sample.body_for "hello"))).2
  = Ret (success_response
           ("{" +:+ Sample.member "outputContexts"
              ("[" +:+ Sample.write_context (Context.mk "greeted" 5 None) +:+ ","
                   +:+ Sample.write_context (Context.mk "greeted" 5 None) +:+ "]")
            +:+ "}"),
         None).
Proof. vm_compute. reflexivity. Qed.

(** The README's handler itself faults on a body that carries neither the
    [name] parameter nor an original request. *)
Example scenario_hello_without_name :
  HandleRequest Sample.decode_sample Sample.marshal_sample Sample.registry
    (Sample.request Sample.body_bare)
  = ([ReadRegistry "hello"; Invoke "hello"], Panic).
Proof. vm_compute. reflexivity. Qed.

(** * Further properties of the package *)

(** ** Mutators composed *)

Lemma mutations_cons (m : mutation) (ms : list mutation) (w : Agent) :
  mutations (m :: ms) w = mutations ms (mutate w m).
Proof. reflexivity. Qed.

Lemma AddPayload_text (w : Agent) (name value : string) :
  WebhookResponse.FulfillmentText (res (AddPayload w name value))
  = WebhookResponse.FulfillmentText (res w).
Proof.
  unfold AddPayload, Response.
  by destruct (WebhookResponse.Payload (res w)) as [[[fields|]]|].
Qed.

Lemma AddPayload_other (w : Agent) (name value other : string) :
  other ≠ name →
  payload_at (AddPayload w name value) other = payload_at w other.
Proof.
  intros Hne. unfold payload_at, AddPayload, Response.
  destruct (WebhookResponse.Payload (res w)) as [[[fields|]]|]; simpl.
  - by apply lookup_insert_ne.
  - by apply lookup_singleton_ne.
  - by apply lookup_singleton_ne.
Qed.

Lemma mutate_payload_at (w : Agent) (m : mutation) (name : string) :
  payload_at (mutate w m) name
  = match written name m with
    | Some value => Some (structpb.StringValue value)
    | None => payload_at w name
    end.
Proof.
  destruct m as [text|c l|n value|n value]; simpl; try reflexivity.
  - destruct (decide (n = name)) as [->|Hne].
    + apply AddPayload_lookup.
    + apply AddPayload_other. congruence.
  - unfold AddJSONPayloadBase64. destruct (decide (n = name)) as [->|Hne].
    + apply AddPayload_lookup.
    + apply AddPayload_other. congruence.
Qed.

Lemma AddPayload_creates (w : Agent) (name value : string) :
  WebhookResponse.Payload (res (AddPayload w name value)) ≠ None.
Proof.
  unfold AddPayload, Response.
  by destruct (WebhookResponse.Payload (res w)) as [[[fields|]]|].
Qed.

Lemma mutate_payload_nil (w : Agent) (m : mutation) :
  WebhookResponse.Payload (res (mutate w m)) = None
  ↔ WebhookResponse.Payload (res w) = None ∧ writes_payload m = false.
Proof.
  destruct m as [text|c l|n value|n value]; simpl.
  - split; [intros Hnil; by split | by intros [Hnil _]].
  - split; [intros Hnil; by split | by intros [Hnil _]].
  - split; [intros Hnil | intros [_ Hw]; discriminate Hw].
    by destruct (AddPayload_creates w n value).
  - split; [intros Hnil | intros [_ Hw]; discriminate Hw].
    by destruct (AddPayload_creates w n (base64.EncodeToString value)).
Qed.

Lemma mutations_text (ms : list mutation) (w : Agent) :
  WebhookResponse.FulfillmentText (res (mutations ms w))
  = match last_Say ms with
    | Some text => text
    | None => WebhookResponse.FulfillmentText (res w)
    end.
Proof.
  revert w. induction ms as [|m ms IH]; intros w; [reflexivity|].
  rewrite mutations_cons, IH. simpl.
  destruct (last_Say ms) as [text|]; [reflexivity|].
  destruct m; simpl; try reflexivity.
  - apply AddPayload_text.
  - unfold AddJSONPayloadBase64. apply AddPayload_text.
Qed.

Lemma mutations_contexts (ms : list mutation) (w : Agent) :
  WebhookResponse.OutputContexts (res (mutations ms w))
  = WebhookResponse.OutputContexts (res w) ++ contexts_of ms.
Proof.
  revert w. induction ms as [|m ms IH]; intros w.
  - simpl. by rewrite app_nil_r.
  - rewrite mutations_cons, IH, mutate_contexts, <- app_assoc, <- contexts_of_app.
    reflexivity.
Qed.

(** X1.  [Say] overwrites the fulfillment text and no other mutator touches
    it: after any sequence of mutator calls the text is the argument of the
    last [Say] call, and the text the agent started with when there is no
    [Say] call; in particular of two [Say] calls the second wins. *)
Theorem Say_last_call_wins (ms : list mutation) (w : Agent) :
  WebhookResponse.FulfillmentText (res (mutations ms w))
  = match last_Say ms with
    | Some text => text
    | None => WebhookResponse.FulfillmentText (res w)
    end
  ∧ ∀ first second, Say (Say w first) second = Say w second.
Proof. split; [apply mutations_text | reflexivity]. Qed.

(** X2.  [AddPayload] is a map insert: afterwards the payload holds the
    string value under the name, and every other name reads as before,
    whether the payload was nil, had a nil map, or had entries. *)
Theorem AddPayload_insert_lookup (w : Agent) (name value : string) :
  payload_at (AddPayload w name value) name = Some (structpb.StringValue value)
  ∧ ∀ other, other ≠ name →
      payload_at (AddPayload w name value) other = payload_at w other.
Proof.
  split.
  - apply AddPayload_lookup.
  - intros other Hne. by apply AddPayload_other.
Qed.

(** X3.  Writing the same payload name twice leaves the agent exactly as
    the second write alone would. *)
Theorem AddPayload_same_name_overwrites (w : Agent) (name v1 v2 : string) :
  AddPayload (AddPayload w name v1) name v2 = AddPayload w name v2.
Proof.
  unfold AddPayload, Response.
  destruct w as [rq [text source [[[fields|]]|] contexts]]; simpl;
    unfold set_Payload; simpl.
  - by rewrite insert_insert_eq.
  - by rewrite insert_singleton_eq.
  - by rewrite insert_singleton_eq.
Qed.

(** X4.  Writes to two different payload names commute. *)
Theorem AddPayload_distinct_names_commute (w : Agent) (a b v u : string) :
  a ≠ b →
  AddPayload (AddPayload w a v) b u = AddPayload (AddPayload w b u) a v.
Proof.
  intros Hne. unfold AddPayload, Response.
  destruct w as [rq [text source [[[fields|]]|] contexts]]; simpl;
    unfold set_Payload; simpl.
  - by rewrite (insert_insert_ne fields b a) by done.
  - rewrite <- !insert_empty. by rewrite (insert_insert_ne ∅ b a) by done.
  - rewrite <- !insert_empty. by rewrite (insert_insert_ne ∅ b a) by done.
Qed.

Lemma AddPayload_distinct_names_commute_witness :
  AddPayload (AddPayload (newAgent Sample.request_bare).1 "a" "1") "b" "2"
  = AddPayload (AddPayload (newAgent Sample.request_bare).1 "b" "2") "a" "1".
Proof.
  apply (AddPayload_distinct_names_commute (newAgent Sample.request_bare).1
           "a" "b" "1" "2").
  discriminate.
Defined.

(** X6.  After any sequence of mutator calls, the payload entry of a name is
    the string of the last call that wrote the name ([AddPayload]: the
    value, [AddJSONPayloadBase64]: its base64 encoding), and the entry the
    agent started with when no call wrote it. *)
Theorem payload_holds_last_write (ms : list mutation) (w : Agent) (name : string) :
  payload_at (mutations ms w) name
  = match last_written name ms with
    | Some value => Some (structpb.StringValue value)
    | None => payload_at w name
    end.
Proof.
  revert w. induction ms as [|m ms IH]; intros w; [reflexivity|].
  rewrite mutations_cons, IH. simpl.
  destruct (last_written name ms) as [value|]; [reflexivity|].
  apply mutate_payload_at.
Qed.

(** X7.  The payload is created by the first payload write and by nothing
    else: after a sequence of mutator calls the payload pointer is nil
    exactly when it was nil before and no call was [AddPayload] or
    [AddJSONPayloadBase64]. *)
Theorem payload_created_on_first_write (ms : list mutation) (w : Agent) :
  WebhookResponse.Payload (res (mutations ms w)) = None
  ↔ WebhookResponse.Payload (res w) = None
    ∧ forallb (λ m, negb (writes_payload m)) ms = true.
Proof.
  revert w. induction ms as [|m ms IH]; intros w.
  - simpl. split; [intros Hnil; by split | by intros [Hnil _]].
  - rewrite mutations_cons, IH, mutate_payload_nil. simpl.
    rewrite andb_true_iff, negb_true_iff. tauto.
Qed.

(** ** The getters, continued *)

(** X8.  The exact fault condition of the accessors.  [Action] faults
    exactly when the request has no query result; each parameter getter
    faults exactly when the request has no query result, or the name has no
    entry in the parameters and the request has no original request.  In
    every other case the getter returns. *)
Theorem getters_fault_exactly (w : Agent) (name : string) :
  let missing :=
    WebhookRequest.QueryResult (req w) = None
    ∨ ∃ qr, WebhookRequest.QueryResult (req w) = Some qr
            ∧ index (structpb.GetFields (QueryResult.Parameters qr)) name = None
            ∧ WebhookRequest.OriginalDetectIntentRequest (req w) = None in
  (Action w = Panic ↔ WebhookRequest.QueryResult (req w) = None)
  ∧ (GetStringParam w name = Panic ↔ missing)
  ∧ (GetNumberParam w name = Panic ↔ missing)
  ∧ (¬ missing → ∃ s x, GetStringParam w name = Ret s ∧ GetNumberParam w name = Ret x).
Proof.
  intros missing. unfold missing. clear missing.
  destruct (WebhookRequest.QueryResult (req w)) as [qr|] eqn:Hqr.
  2:{ pose proof (getField_nil_queryResult w name Hqr) as Hf.
      unfold Action, GetStringParam, GetNumberParam. rewrite Hqr, Hf. simpl.
      repeat split; auto. intros Hno. destruct Hno. by left. }
  assert (HA : Action w = Ret (QueryResult.Action qr))
    by (unfold Action; rewrite Hqr; reflexivity).
  rewrite HA.
  destruct (index (structpb.GetFields (QueryResult.Parameters qr)) name) as [v|] eqn:Hv.
  { pose proof (getField_in_parameters w qr name v Hqr Hv) as Hf.
    rewrite (GetStringParam_of_getField _ _ _ Hf), (GetNumberParam_of_getField _ _ _ Hf).
    repeat split; try discriminate; eauto.
    - intros [Hq|(qr' & Hq & Hi & _)]; [discriminate Hq|]. congruence.
    - intros [Hq|(qr' & Hq & Hi & _)]; [discriminate Hq|]. congruence. }
  destruct (WebhookRequest.OriginalDetectIntentRequest (req w)) as [odir|] eqn:Ho.
  { pose proof (getField_fallback w qr odir name Hqr Hv Ho) as Hf.
    rewrite (GetStringParam_of_getField _ _ _ Hf), (GetNumberParam_of_getField _ _ _ Hf).
    repeat split; try discriminate; eauto.
    - intros [Hq|(qr' & _ & _ & Hq)]; discriminate Hq.
    - intros [Hq|(qr' & _ & _ & Hq)]; discriminate Hq. }
  pose proof (getField_nil_original w qr name Hqr Hv Ho) as Hf.
  unfold GetStringParam, GetNumberParam. rewrite Hf. simpl.
  repeat split; try discriminate; eauto.
  intros Hno. destruct Hno. right. eauto.
Qed.

Lemma getters_fault_exactly_witness :
  ∃ s x, GetStringParam (newAgent Sample.request_two_tier).1 "missing" = Ret s
         ∧ GetNumberParam (newAgent Sample.request_two_tier).1 "missing" = Ret x.
Proof.
  apply (getters_fault_exactly (newAgent Sample.request_two_tier).1 "missing").
  intros [Hq|(qr & _ & _ & Ho)]; [discriminate Hq | discriminate Ho].
Defined.

(** X9.  A parameter is a string or a number, not both: when
    [GetStringParam] returns a non-empty string for a name,
    [GetNumberParam] returns 0 for it, and when [GetNumberParam] returns a
    number other than 0, [GetStringParam] returns the empty string. *)
Theorem string_and_number_exclude (w : Agent) (name : string) :
  (∀ s, GetStringParam w name = Ret s → s ≠ EmptyString →
        GetNumberParam w name = Ret float64_zero)
  ∧ (∀ x, GetNumberParam w name = Ret x → x ≠ float64_zero →
          GetStringParam w name = Ret EmptyString).
Proof.
  unfold GetStringParam, GetNumberParam.
  destruct (getField w name) as [f|]; simpl; [| split; intros ? H; discriminate H].
  split.
  - intros s Hs Hne. destruct f as [[]|]; simpl in *; try reflexivity;
      injection Hs as <-; by destruct Hne.
  - intros x Hx Hne. destruct f as [[]|]; simpl in *; try reflexivity;
      injection Hx as <-; by destruct Hne.
Qed.

Lemma string_and_number_exclude_witness :
  GetNumberParam (newAgent Sample.request_two_tier).1 "name" = Ret float64_zero
  ∧ GetStringParam (newAgent Sample.request_two_tier).1 "count" = Ret EmptyString.
Proof.
  destruct (string_and_number_exclude (newAgent Sample.request_two_tier).1 "name")
    as [Hs _].
  destruct (string_and_number_exclude (newAgent Sample.request_two_tier).1 "count")
    as [_ Hx].
  split.
  - apply (Hs "Ada"%string); [vm_compute; reflexivity | discriminate].
  - apply (Hx (S754_finite false 3 0)); [vm_compute; reflexivity | discriminate].
Defined.

(** X10.  The two-tier getters extend the earlier revision: every non-empty
    string and every number other than 0 that the earlier getter returns for
    a name, the current getter returns too. *)
Theorem new_getters_extend_old (w : Agent) (name : string) :
  (∀ s, Previous.GetStringParam w name = Ret s → s ≠ EmptyString →
        GetStringParam w name = Ret s)
  ∧ (∀ x, Previous.GetNumberParam w name = Ret x → x ≠ float64_zero →
          GetNumberParam w name = Ret x).
Proof.
  unfold Previous.GetStringParam, Previous.GetNumberParam.
  destruct (WebhookRequest.QueryResult (req w)) as [qr|] eqn:Hqr; simpl;
    [| split; intros ? H; discriminate H].
  destruct (index (structpb.GetFields (QueryResult.Parameters qr)) name) as [v|] eqn:Hv.
  - pose proof (getField_in_parameters w qr name v Hqr Hv) as Hf.
    rewrite (GetStringParam_of_getField _ _ _ Hf), (GetNumberParam_of_getField _ _ _ Hf).
    by split.
  - split.
    + intros s [= <-] Hne. by destruct Hne.
    + intros x [= <-] Hne. by destruct Hne.
Qed.

Lemma new_getters_extend_old_witness :
  GetStringParam (newAgent Sample.request_two_tier).1 "name" = Ret "Ada"%string
  ∧ GetNumberParam (newAgent Sample.request_two_tier).1 "count"
    = Ret (S754_finite false 3 0).
Proof.
  destruct (new_getters_extend_old (newAgent Sample.request_two_tier).1 "name")
    as [Hs _].
  destruct (new_getters_extend_old (newAgent Sample.request_two_tier).1 "count")
    as [_ Hx].
  split.
  - apply Hs; [vm_compute; reflexivity | discriminate].
  - apply Hx; [vm_compute; reflexivity | discriminate].
Defined.

(** ** Dispatch, continued *)

Lemma HandleRequest_same_entry
    (Unmarshal : string → result WebhookRequest.t)
    (Marshal : WebhookResponse.t → result string)
    (m1 m2 : gmap string WebhookHandler) (r : APIGatewayProxyRequest.t) :
  (∀ webhookRequest qr,
     Unmarshal (APIGatewayProxyRequest.Body r) = Ok webhookRequest →
     WebhookRequest.QueryResult webhookRequest = Some qr →
     handlerMap_at m1 (QueryResult.Action qr) = handlerMap_at m2 (QueryResult.Action qr)) →
  HandleRequest Unmarshal Marshal m1 r = HandleRequest Unmarshal Marshal m2 r.
Proof.
  intros Hsame.
  destruct (Unmarshal (APIGatewayProxyRequest.Body r)) as [webhookRequest|e] eqn:Hdec.
  2:{ by rewrite !(HandleRequest_decode_error _ _ _ _ _ Hdec). }
  destruct (WebhookRequest.QueryResult webhookRequest) as [qr|] eqn:Hqr.
  2:{ by rewrite !(HandleRequest_nil_queryResult _ _ _ _ _ Hdec Hqr). }
  specialize (Hsame webhookRequest qr eq_refl Hqr).
  destruct (handlerMap_at m2 (QueryResult.Action qr)) as [handler|] eqn:Hat.
  - by rewrite (HandleRequest_invokes _ _ _ _ _ _ _ Hdec Hqr Hsame),
         (HandleRequest_invokes _ _ _ _ _ _ _ Hdec Hqr Hat).
  - by rewrite (HandleRequest_no_handler _ _ _ _ _ _ Hdec Hqr Hsame),
         (HandleRequest_no_handler _ _ _ _ _ _ Hdec Hqr Hat).
Qed.

(** X11.  When the handler returns but the marshaler fails on the response
    it left, [HandleRequest] returns status 500 alone, with the marshaler's
    own error, after the handler was called. *)
Theorem marshal_failure_500
    (Unmarshal : string → result WebhookRequest.t)
    (Marshal : WebhookResponse.t → result string)
    (handlerMap : gmap string WebhookHandler) (r : APIGatewayProxyRequest.t)
    (webhookRequest : WebhookRequest.t) (qr : QueryResult.t)
    (handler : handler_fn) (w' : Agent) (err : error) :
  Unmarshal (APIGatewayProxyRequest.Body r) = Ok webhookRequest →
  WebhookRequest.QueryResult webhookRequest = Some qr →
  handlerMap_at handlerMap (QueryResult.Action qr) = Some handler →
  handler (mkAgent webhookRequest WebhookResponse.zero) = Ret w' →
  Marshal (res w') = Err err →
  HandleRequest Unmarshal Marshal handlerMap r
  = ([ReadRegistry (QueryResult.Action qr); Invoke (QueryResult.Action qr)],
     Ret (APIGatewayProxyResponse.status_only 500, Some err)).
Proof.
  intros Hdec Hqr Hat Hrun Hmarshal.
  by rewrite (HandleRequest_invokes _ _ _ _ _ _ _ Hdec Hqr Hat), Hrun, Hmarshal.
Qed.

Lemma marshal_failure_500_witness :
  HandleRequest Sample.decode_sample Sample.marshal_sample Sample.registry_kindless
    (Sample.request (Sample.body_for "hello"))
  = ([ReadRegistry "hello"; Invoke "hello"],
     Ret (APIGatewayProxyResponse.status_only 500, Some "nil Value"%string)).
Proof.
  apply (marshal_failure_500 Sample.decode_sample Sample.marshal_sample
           Sample.registry_kindless (Sample.request (Sample.body_for "hello"))
           (Sample.request_for "hello")
           {| QueryResult.QueryText := EmptyString; QueryResult.Action := "hello";
              QueryResult.Parameters :=
                Some (structpb.mkStruct
                        (Some {["name" := structpb.StringValue "Ada"]})) |}
           Sample.kindless
           (mkAgent (Sample.request_for "hello")
              (set_Payload WebhookResponse.zero
                 (Some (structpb.mkStruct (Some {["x" := structpb.Kind_nil]})))))).
  - vm_compute. reflexivity.
  - reflexivity.
  - vm_compute. reflexivity.
  - reflexivity.
  - vm_compute. reflexivity.
Defined.

(** X12.  A fault of the handler is not recovered: [HandleRequest] faults
    with it, after the registry read and the call, and returns no
    response. *)
Theorem handler_fault_propagates
    (Unmarshal : string → result WebhookRequest.t)
    (Marshal : WebhookResponse.t → result string)
    (handlerMap : gmap string WebhookHandler) (r : APIGatewayProxyRequest.t)
    (webhookRequest : WebhookRequest.t) (qr : QueryResult.t) (handler : handler_fn) :
  Unmarshal (APIGatewayProxyRequest.Body r) = Ok webhookRequest →
  WebhookRequest.QueryResult webhookRequest = Some qr →
  handlerMap_at handlerMap (QueryResult.Action qr) = Some handler →
  handler (mkAgent webhookRequest WebhookResponse.zero) = Panic →
  HandleRequest Unmarshal Marshal handlerMap r
  = ([ReadRegistry (QueryResult.Action qr); Invoke (QueryResult.Action qr)], Panic).
Proof.
  intros Hdec Hqr Hat Hrun.
  by rewrite (HandleRequest_invokes _ _ _ _ _ _ _ Hdec Hqr Hat), Hrun.
Qed.

Lemma handler_fault_propagates_witness :
  HandleRequest Sample.decode_sample Sample.marshal_sample Sample.registry
    (Sample.request Sample.body_bare)
  = ([ReadRegistry "hello"; Invoke "hello"], Panic).
Proof.
  apply (handler_fault_propagates Sample.decode_sample Sample.marshal_sample
           Sample.registry (Sample.request Sample.body_bare) Sample.request_bare
           {| QueryResult.QueryText := EmptyString; QueryResult.Action := "hello";
              QueryResult.Parameters := None |}
           hello).
  - vm_compute. reflexivity.
  - reflexivity.
  - vm_compute. reflexivity.
  - vm_compute. reflexivity.
Defined.

(** X13.  Dispatch looks at one registry entry only: registering a handler
    for another action than the request's leaves the whole result of
    [HandleRequest] unchanged. *)
Theorem Register_other_action_keeps_dispatch
    (Unmarshal : string → result WebhookRequest.t)
    (Marshal : WebhookResponse.t → result string)
    (handlerMap : gmap string WebhookHandler) (r : APIGatewayProxyRequest.t)
    (webhookRequest : WebhookRequest.t) (qr : QueryResult.t)
    (other : string) (h : WebhookHandler) :
  Unmarshal (APIGatewayProxyRequest.Body r) = Ok webhookRequest →
  WebhookRequest.QueryResult webhookRequest = Some qr →
  QueryResult.Action qr ≠ other →
  HandleRequest Unmarshal Marshal (Register handlerMap other h) r
  = HandleRequest Unmarshal Marshal handlerMap r.
Proof.
  intros Hdec Hqr Hne. apply HandleRequest_same_entry.
  intros webhookRequest' qr' Hdec' Hqr'.
  rewrite Hdec in Hdec'. injection Hdec' as <-.
  rewrite Hqr in Hqr'. injection Hqr' as <-.
  by apply handlerMap_at_Register_other.
Qed.

Lemma Register_other_action_keeps_dispatch_witness :
  HandleRequest Sample.decode_sample Sample.marshal_sample
    (Register Sample.registry "bye" (Some faulty))
    (Sample.request (Sample.body_for "hello"))
  = HandleRequest Sample.decode_sample Sample.marshal_sample Sample.registry
      (Sample.request (Sample.body_for "hello")).
Proof.
  apply (Register_other_action_keeps_dispatch Sample.decode_sample
           Sample.marshal_sample Sample.registry
           (Sample.request (Sample.body_for "hello")) (Sample.request_for "hello")
           {| QueryResult.QueryText := EmptyString; QueryResult.Action := "hello";
              QueryResult.Parameters :=
                Some (structpb.mkStruct
                        (Some {["name" := structpb.StringValue "Ada"]})) |}
           "bye" (Some faulty)).
  - vm_compute. reflexivity.
  - reflexivity.
  - discriminate.
Defined.

(** X14.  Registering a nil handler for an action unregisters it: a request
    with that action then gets status 404, whatever was registered before,
    and no handler is called. *)
Theorem Register_nil_unregisters
    (Unmarshal : string → result WebhookRequest.t)
    (Marshal : WebhookResponse.t → result string)
    (handlerMap : gmap string WebhookHandler) (r : APIGatewayProxyRequest.t)
    (webhookRequest : WebhookRequest.t) (qr : QueryResult.t) :
  Unmarshal (APIGatewayProxyRequest.Body r) = Ok webhookRequest →
  WebhookRequest.QueryResult webhookRequest = Some qr →
  HandleRequest Unmarshal Marshal
    (Register handlerMap (QueryResult.Action qr) None) r
  = ([ReadRegistry (QueryResult.Action qr)],
     Ret (APIGatewayProxyResponse.status_only 404,
          Some ("no handler defined for action: " +:+ QueryResult.Action qr))).
Proof.
  intros Hdec Hqr. apply (HandleRequest_no_handler _ _ _ _ _ _ Hdec Hqr).
  apply handlerMap_at_Register.
Qed.

Lemma Register_nil_unregisters_witness :
  HandleRequest Sample.decode_sample Sample.marshal_sample
    (Register Sample.registry "hello" None)
    (Sample.request (Sample.body_for "hello"))
  = ([ReadRegistry "hello"],
     Ret (APIGatewayProxyResponse.status_only 404,
          Some "no handler defined for action: hello"%string)).
Proof.
  apply (Register_nil_unregisters Sample.decode_sample Sample.marshal_sample
           Sample.registry (Sample.request (Sample.body_for "hello"))
           (Sample.request_for "hello")
           {| QueryResult.QueryText := EmptyString; QueryResult.Action := "hello";
              QueryResult.Parameters :=
                Some (structpb.mkStruct
                        (Some {["name" := structpb.StringValue "Ada"]})) |}).
  - vm_compute. reflexivity.
  - reflexivity.
Defined.

(** X15.  One request touches the registry at most once and calls at most
    one handler, the one of the action it read: the record of a run is
    empty, one registry read, or one registry read followed by the call for
    the same action; and a handler is called for an action exactly when the
    body decodes to a request with that action and the registry holds a
    non-nil handler for it. *)
Theorem dispatch_trace_shape
    (Unmarshal : string → result WebhookRequest.t)
    (Marshal : WebhookResponse.t → result string)
    (handlerMap : gmap string WebhookHandler) (r : APIGatewayProxyRequest.t) :
  ((HandleRequest Unmarshal Marshal handlerMap r).1 = []
   ∨ ∃ action,
       (HandleRequest Unmarshal Marshal handlerMap r).1 = [ReadRegistry action]
       ∨ (HandleRequest Unmarshal Marshal handlerMap r).1
         = [ReadRegistry action; Invoke action])
  ∧ ∀ action,
      Invoke action ∈ (HandleRequest Unmarshal Marshal handlerMap r).1
      ↔ ∃ webhookRequest qr handler,
          Unmarshal (APIGatewayProxyRequest.Body r) = Ok webhookRequest
          ∧ WebhookRequest.QueryResult webhookRequest = Some qr
          ∧ QueryResult.Action qr = action
          ∧ handlerMap_at handlerMap action = Some handler.
Proof.
  destruct (Unmarshal (APIGatewayProxyRequest.Body r)) as [webhookRequest|e] eqn:Hdec.
  2:{ rewrite (HandleRequest_decode_error _ _ _ _ _ Hdec). simpl.
      split; [by left|]. intros action. split.
      - intros Hin. by apply elem_of_nil in Hin.
      - intros (? & ? & ? & Hd & _). discriminate Hd. }
  destruct (WebhookRequest.QueryResult webhookRequest) as [qr|] eqn:Hqr.
  2:{ rewrite (HandleRequest_nil_queryResult _ _ _ _ _ Hdec Hqr). simpl.
      split; [by left|]. intros action. split.
      - intros Hin. by apply elem_of_nil in Hin.
      - intros (wr & qr & ? & [= <-] & Hq & _). congruence. }
  destruct (handlerMap_at handlerMap (QueryResult.Action qr)) as [handler|] eqn:Hat.
  - rewrite (HandleRequest_invokes _ _ _ _ _ _ _ Hdec Hqr Hat). simpl.
    split; [right; eauto|]. intros action. split.
    + intros Hin. apply elem_of_cons in Hin as [Hin|Hin]; [discriminate Hin|].
      apply list_elem_of_singleton in Hin. injection Hin as ->.
      exists webhookRequest, qr, handler. by repeat split.
    + intros (wr & qr' & handler' & [= <-] & Hq & <- & _).
      rewrite Hqr in Hq. injection Hq as <-. set_solver.
  - rewrite (HandleRequest_no_handler _ _ _ _ _ _ Hdec Hqr Hat). simpl.
    split; [right; eauto|]. intros action. split.
    + intros Hin. apply list_elem_of_singleton in Hin. discriminate Hin.
    + intros (wr & qr' & handler' & [= <-] & Hq & <- & Hsome).
      rewrite Hqr in Hq. injection Hq as <-. congruence.
Qed.

(** X16.  The shape of every response [HandleRequest] returns:
    [IsBase64Encoded] is false; with status 200 the headers are exactly
    [Content-Type: application/json]; with any other status there are no
    headers and the body is empty. *)
Theorem response_shape
    (Unmarshal : string → result WebhookRequest.t)
    (Marshal : WebhookResponse.t → result string)
    (handlerMap : gmap string WebhookHandler) (r : APIGatewayProxyRequest.t)
    (t : list event) (response : APIGatewayProxyResponse.t) (err : option error) :
  HandleRequest Unmarshal Marshal handlerMap r = (t, Ret (response, err)) →
  APIGatewayProxyResponse.IsBase64Encoded response = false
  ∧ (APIGatewayProxyResponse.StatusCode response = 200 →
     APIGatewayProxyResponse.Headers response
     = Some {["Content-Type" := "application/json"%string]})
  ∧ (APIGatewayProxyResponse.StatusCode response ≠ 200 →
     APIGatewayProxyResponse.Headers response = None
     ∧ APIGatewayProxyResponse.Body response = EmptyString).
Proof.
  destruct (Unmarshal (APIGatewayProxyRequest.Body r)) as [webhookRequest|e] eqn:Hdec.
  2:{ rewrite (HandleRequest_decode_error _ _ _ _ _ Hdec). intros [= <- <- <-].
      simpl. split; [reflexivity|]. split; [intros Hs; discriminate Hs | by intros _]. }
  destruct (WebhookRequest.QueryResult webhookRequest) as [qr|] eqn:Hqr.
  2:{ rewrite (HandleRequest_nil_queryResult _ _ _ _ _ Hdec Hqr). intros Hret.
      discriminate Hret. }
  destruct (handlerMap_at handlerMap (QueryResult.Action qr)) as [handler|] eqn:Hat.
  2:{ rewrite (HandleRequest_no_handler _ _ _ _ _ _ Hdec Hqr Hat). intros [= <- <- <-].
      simpl. split; [reflexivity|]. split; [intros Hs; discriminate Hs | by intros _]. }
  rewrite (HandleRequest_invokes _ _ _ _ _ _ _ Hdec Hqr Hat).
  destruct (handler _) as [w'|]; [| intros Hret; discriminate Hret].
  destruct (Marshal _) as [body|e]; intros [= <- <- <-]; simpl.
  - split; [reflexivity|]. split; [reflexivity | intros Hs; by destruct Hs].
  - split; [reflexivity|]. split; [intros Hs; discriminate Hs | by intros _].
Qed.

Lemma response_shape_witness :
  APIGatewayProxyResponse.IsBase64Encoded
    (success_response
       ("{" +:+ Sample.member "fulfillmentText" (Sample.quoted "Hello, Ada") +:+ "}"))
  = false
  ∧ APIGatewayProxyResponse.Headers (APIGatewayProxyResponse.status_only 404) = None.
Proof.
  split.
  - apply (response_shape Sample.decode_sample Sample.marshal_sample
             Sample.registry (Sample.request (Sample.body_for "hello"))
             [ReadRegistry "hello"; Invoke "hello"]
             (success_response
                ("{" +:+ Sample.member "fulfillmentText" (Sample.quoted "Hello, Ada") +:+ "}"))
             None).
    vm_compute. reflexivity.
  - apply (response_shape Sample.decode_sample Sample.marshal_sample
             Sample.registry (Sample.request (Sample.body_for "unregistered"))
             [ReadRegistry "unregistered"]
             (APIGatewayProxyResponse.status_only 404)
             (Some "no handler defined for action: unregistered"%string)).
    + vm_compute. reflexivity.
    + discriminate.
Defined.

(** ** The base64 payload, continued *)

Lemma EncodeToString_alphabet (s : string) :
  all_chars (λ c, base64.in_alphabet c || Ascii.eqb c base64.padChar)
    (base64.EncodeToString s) = true.
Proof.
  pose proof padChar_facts as (_ & _ & Hpad).
  induction s as [|a|a b|a b c rest IH] using string_by_blocks.
  - reflexivity.
  - cbn [base64.EncodeToString all_chars].
    rewrite !sextet_in_alphabet, Hpad by lia. rewrite !orb_true_r. reflexivity.
  - cbn [base64.EncodeToString all_chars].
    rewrite !sextet_in_alphabet, Hpad by lia. rewrite !orb_true_r. reflexivity.
  - cbn [base64.EncodeToString all_chars].
    rewrite !sextet_in_alphabet by lia. rewrite IH. reflexivity.
Qed.

Lemma EncodeToString_length (s : string) :
  Z.of_nat (String.length (base64.EncodeToString s))
  = 4 * ((Z.of_nat (String.length s) + 2) / 3).
Proof.
  induction s as [|a|a b|a b c rest IH] using string_by_blocks.
  - reflexivity.
  - reflexivity.
  - reflexivity.
  - cbn [base64.EncodeToString String.length].
    rewrite !Nat2Z.inj_succ, IH. Z.div_mod_to_equations. lia.
Qed.

(** X17.  [AddJSONPayloadBase64] is lossless: when two calls leave the same
    string under their names, they were given the same value. *)
Theorem AddJSONPayloadBase64_lossless (w1 w2 : Agent) (name1 name2 v1 v2 : string) :
  payload_at (AddJSONPayloadBase64 w1 name1 v1) name1
  = payload_at (AddJSONPayloadBase64 w2 name2 v2) name2 →
  v1 = v2.
Proof.
  unfold payload_at, AddJSONPayloadBase64. rewrite !AddPayload_lookup.
  intros [= Henc].
  assert (Hdec : base64.DecodeString (base64.EncodeToString v1)
                 = base64.DecodeString (base64.EncodeToString v2)) by (by rewrite Henc).
  rewrite !DecodeString_EncodeToString in Hdec. by injection Hdec.
Qed.

Lemma AddJSONPayloadBase64_lossless_witness : "hello"%string = "hello"%string.
Proof.
  apply (AddJSONPayloadBase64_lossless (newAgent Sample.request_bare).1
           (Say (newAgent Sample.request_bare).1 "x") "k" "j" "hello" "hello").
  vm_compute. reflexivity.
Defined.

(** X18.  The string [AddJSONPayloadBase64] stores is made of the 64
    characters of the base64 alphabet and the padding character [=] only,
    and its length is four characters for every three bytes of the value,
    rounded up. *)
Theorem base64_payload_is_padded_alphabet (w : Agent) (name v : string) :
  ∃ encoded,
    payload_at (AddJSONPayloadBase64 w name v) name
    = Some (structpb.StringValue encoded)
    ∧ all_chars (λ c, base64.in_alphabet c || Ascii.eqb c base64.padChar) encoded
      = true
    ∧ Z.of_nat (String.length encoded) = 4 * ((Z.of_nat (String.length v) + 2) / 3).
Proof.
  exists (base64.EncodeToString v). split; [| split].
  - unfold payload_at, AddJSONPayloadBase64. apply AddPayload_lookup.
  - apply EncodeToString_alphabet.
  - apply EncodeToString_length.
Qed.

(** ** The earlier revision of dispatch *)

Lemma hex_at_not_markup (i : Z) : json.is_markup (json.hex_at i) = false.
Proof.
  unfold json.hex_at. generalize (Z.to_nat i) as n. intros n.
  do 16 (destruct n as [|n]; [reflexivity|]). reflexivity.
Qed.

Lemma all_chars_append (p : ascii → bool) (s1 s2 : string) :
  all_chars p (s1 +:+ s2) = all_chars p s1 && all_chars p s2.
Proof.
  induction s1 as [|c s1 IH]; [reflexivity|].
  change (String c s1 +:+ s2) with (String c (s1 +:+ s2)).
  cbn [all_chars]. rewrite IH. apply andb_assoc.
Qed.

Lemma HTMLEscape_cons (c : ascii) (rest : string) :
  json.HTMLEscape (String c rest)
  = if json.is_markup c then
      "\u00" +:+
      String (json.hex_at (Z.shiftr (json.uint8 c) 4))
        (String (json.hex_at (Z.land (json.uint8 c) 15)) (json.HTMLEscape rest))
    else
      match rest with
      | String c1 (String c2 rest') =>
          if Ascii.eqb c "226" && Ascii.eqb c1 "128"
             && (Z.land (json.uint8 c2) 254 =? 168)
          then "\u202" +:+
               String (json.hex_at (Z.land (json.uint8 c2) 15)) (json.HTMLEscape rest')
          else String c (json.HTMLEscape rest)
      | _ => String c (json.HTMLEscape rest)
      end.
Proof. by destruct rest as [|c1 [|c2 rest']]. Qed.

Lemma HTMLEscape_no_markup_upto (n : nat) :
  ∀ s, (String.length s ≤ n)%nat →
       all_chars (λ c, negb (json.is_markup c)) (json.HTMLEscape s) = true.
Proof.
  induction n as [|n IH]; intros s Hlen.
  - destruct s; [reflexivity | simpl in Hlen; lia].
  - destruct s as [|c rest]; [reflexivity|].
    cbn [String.length] in Hlen. rewrite HTMLEscape_cons.
    destruct (json.is_markup c) eqn:Hc.
    + rewrite all_chars_append. cbn [all_chars]. rewrite !hex_at_not_markup.
      rewrite IH by lia. reflexivity.
    + assert (Hcopy : all_chars (λ c, negb (json.is_markup c))
                        (String c (json.HTMLEscape rest)) = true).
      { cbn [all_chars]. rewrite Hc, IH by lia. reflexivity. }
      destruct rest as [|c1 [|c2 rest']]; try exact Hcopy.
      destruct (Ascii.eqb c "226" && Ascii.eqb c1 "128"
                && (Z.land (json.uint8 c2) 254 =? 168)); [| exact Hcopy].
      rewrite all_chars_append. cbn [all_chars]. rewrite hex_at_not_markup.
      rewrite IH by (cbn [String.length] in Hlen; lia). reflexivity.
Qed.

Lemma HTMLEscape_no_markup (s : string) :
  all_chars (λ c, negb (json.is_markup c)) (json.HTMLEscape s) = true.
Proof. by apply (HTMLEscape_no_markup_upto (String.length s)). Qed.

(** X20.  Whatever the marshaler writes, a response of the earlier revision
    of [HandleRequest] never carries one of the bytes [<], [>] and [&] in
    its body. *)
Theorem Revision0_body_has_no_markup
    (Unmarshal : string → result WebhookRequest.t)
    (jsonMarshal : WebhookResponse.t → result string)
    (handlerMap : gmap string WebhookHandler) (r : APIGatewayProxyRequest.t)
    (t : list event) (response : APIGatewayProxyResponse.t) (err : option error) :
  Revision0.HandleRequest Unmarshal jsonMarshal handlerMap r
  = (t, Ret (response, err)) →
  all_chars (λ c, negb (json.is_markup c)) (APIGatewayProxyResponse.Body response)
  = true.
Proof.
  unfold Revision0.HandleRequest.
  destruct (Unmarshal (APIGatewayProxyRequest.Body r)) as [webhookRequest|e].
  2:{ intros [= <- <- <-]. reflexivity. }
  unfold newAgent, Action. simpl.
  destruct (WebhookRequest.QueryResult webhookRequest) as [qr|]; simpl;
    [| intros Hret; discriminate Hret].
  destruct (handlerMap_at handlerMap (QueryResult.Action qr)) as [handler|]; simpl.
  2:{ intros [= <- <- <-]. reflexivity. }
  destruct (handler _) as [w'|]; simpl; [| intros Hret; discriminate Hret].
  destruct (jsonMarshal (res w')) as [body|e]; intros [= <- <- <-]; simpl.
  - apply HTMLEscape_no_markup.
  - reflexivity.
Qed.

Lemma Revision0_body_has_no_markup_witness :
  all_chars (λ c, negb (json.is_markup c))
    (json.HTMLEscape
       ("{" +:+ Sample.member "fulfillmentText" (Sample.quoted "<b>Ada & Bob")
        +:+ "}"))
  = true.
Proof.
  apply (Revision0_body_has_no_markup Sample.decode_sample Sample.marshal_sample
           (Register ∅ "hello" (Some (handler_of [CallSay "<b>Ada & Bob"])))
           (Sample.request (Sample.body_for "hello"))
           [ReadRegistry "hello"; Invoke "hello"]
           (success_response
              (json.HTMLEscape
                 ("{" +:+ Sample.member "fulfillmentText"
                            (Sample.quoted "<b>Ada & Bob") +:+ "}")))
           None).
  vm_compute. reflexivity.
Defined.

Example Revision0_escapes_markup :
  json.HTMLEscape "<b>Ada & Bob" = "\u003cb\u003eAda \u0026 Bob"%string.
Proof. reflexivity. Qed.

Example HTMLEscape_separators :
  json.HTMLEscape (String "226" (String "128" (String "168" "x")))
  = ("\" +:+ "u2028x")%string
  ∧ json.HTMLEscape (String "226" (String "128" (String "169" "")))
    = ("\" +:+ "u2029")%string
  ∧ json.HTMLEscape (String "226" (String "128" (String "170" "")))
    = String "226" (String "128" (String "170" "")).
Proof. repeat split; reflexivity. Qed.

(** X21.  A handler that only calls mutators cannot fault, so a request
    routed to it always gets a response: status 200 with the marshaled
    response, or status 500 when the marshaler refuses it.  The response
    handed to the marshaler has the text of the last [Say] (empty without
    one) and one context per [SetContext] call, in call order. *)
Theorem mutator_handler_always_answers
    (Unmarshal : string → result WebhookRequest.t)
    (Marshal : WebhookResponse.t → result string)
    (handlerMap : gmap string WebhookHandler) (r : APIGatewayProxyRequest.t)
    (webhookRequest : WebhookRequest.t) (qr : QueryResult.t) (ms : list mutation) :
  Unmarshal (APIGatewayProxyRequest.Body r) = Ok webhookRequest →
  WebhookRequest.QueryResult webhookRequest = Some qr →
  handlerMap_at handlerMap (QueryResult.Action qr) = Some (handler_of ms) →
  ∃ response,
    response = res (mutations ms (newAgent webhookRequest).1)
    ∧ WebhookResponse.FulfillmentText response = default EmptyString (last_Say ms)
    ∧ WebhookResponse.OutputContexts response = contexts_of ms
    ∧ HandleRequest Unmarshal Marshal handlerMap r
      = ([ReadRegistry (QueryResult.Action qr); Invoke (QueryResult.Action qr)],
         match Marshal response with
         | Ok body => Ret (success_response body, None)
         | Err err => Ret (APIGatewayProxyResponse.status_only 500, Some err)
         end).
Proof.
  intros Hdec Hqr Hat. eexists. split; [reflexivity|]. split; [| split].
  - rewrite mutations_text. by destruct (last_Say ms).
  - by rewrite mutations_contexts.
  - rewrite (HandleRequest_invokes _ _ _ _ _ _ _ Hdec Hqr Hat).
    unfold handler_of. simpl. by destruct (Marshal _).
Qed.

Lemma mutator_handler_always_answers_witness :
  ∃ response,
    response
    = res (mutations [CallSay "hi"; CallSetContext "greeted" 5; CallSay "bye"]
             (newAgent (Sample.request_for "hello")).1)
    ∧ WebhookResponse.FulfillmentText response = "bye"%string
    ∧ WebhookResponse.OutputContexts response
      = [Context.mk "greeted" 5 None]
    ∧ HandleRequest Sample.decode_sample Sample.marshal_sample
        (Register ∅ "hello"
           (Some (handler_of [CallSay "hi"; CallSetContext "greeted" 5; CallSay "bye"])))
        (Sample.request (Sample.body_for "hello"))
      = ([ReadRegistry "hello"; Invoke "hello"],
         match Sample.marshal_sample response with
         | Ok body => Ret (success_response body, None)
         | Err err => Ret (APIGatewayProxyResponse.status_only 500, Some err)
         end).
Proof.
  apply (mutator_handler_always_answers Sample.decode_sample Sample.marshal_sample
           (Register ∅ "hello"
              (Some (handler_of [CallSay "hi"; CallSetContext "greeted" 5; CallSay "bye"])))
           (Sample.request (Sample.body_for "hello")) (Sample.request_for "hello")
           {| QueryResult.QueryText := EmptyString; QueryResult.Action := "hello";
              QueryResult.Parameters :=
                Some (structpb.mkStruct
                        (Some {["name" := structpb.StringValue "Ada"]})) |}
           [CallSay "hi"; CallSetContext "greeted" 5; CallSay "bye"]).
  - vm_compute. reflexivity.
  - reflexivity.
  - vm_compute. reflexivity.
Defined.
